(** * Todo-Be: presence registry, socket handlers and notification store

    A shallow embedding of [src/socket/socket.js] and of the controllers
    [notificationController.js] and [taskController.js].

    Identifiers (user ids, socket ids, ObjectIds in their hex form, room
    names, event names) are JavaScript strings.  The [connectedUsers] Map
    is a [gmap]; every handler is a function from state to state, and a
    controller also returns its HTTP status.

    The state holds what the handlers read and write: the Map, the open
    sockets with their rooms, the two collections, and a trace of the
    emits and of the console.  A handler runs to completion: the places
    where it awaits the store are not points of interleaving here, and
    the lemmas about one recipient ([notify_outcome]) are the ones that
    hold at whatever state the loop has reached.  [populate] is taken to
    find every referenced user.  The handlers of [server.js], which only
    write to the console, and [getTasks], which writes nothing, are left
    out. *)

From stdpp Require Import gmap strings list fin_maps.

Open Scope string_scope.
Open Scope list_scope.
Open Scope stdpp_scope.

(** ** The libraries the code calls

    [jwt.verify], Mongoose's ObjectId caster, the driver's id generator and
    the validators of [models/Task.js] (a file that is not among the
    sources) are taken as an environment. *)

(** A document of the Task collection, with the fields the controllers
    name. *)
Record Task := {
  t_id : string;
  t_title : option string;
  t_description : option string;
  t_priority : option string;
  t_dueDate : option string;
  t_status : option string;                   (* [None]: the schema's default *)
  t_assignees : list string;
  t_createdBy : string;
  t_comments : list (string * string);        (* text, user *)
}.

Record Env := {
  (* jwt.verify(token, JWT_SECRET): [Some id] is the [id] field of the
     decoded payload, [None] stands for a thrown error *)
  jwt_verify : string → option string;
  (* the cast of a JSON string to an ObjectId: [Some hex], or [None] for a
     CastError *)
  castObjectId : string → option string;
  (* the [_id] given to the n-th document created *)
  newObjectId : nat → string;
  (* the validators of the Task schema *)
  validateTask : Task → bool;
}.

(** ** Data *)

(** An id as a JavaScript value: a string that came in as JSON, or an
    ObjectId object read from [req.user] or from a stored document.  A
    [Set] compares with SameValueZero: strings by content, objects by
    reference, and a string never equals an object.  Each list built below
    holds at most one ObjectId object, so that structural equality on
    [JsId] is SameValueZero there. *)
Inductive JsId :=
  | JStr (s : string)
  | JOid (hex : string).

#[global] Instance JsId_eq_dec : EqDecision JsId.
Proof. solve_decision. Defined.

Definition castJsId (env : Env) (v : JsId) : option string :=
  match v with
  | JStr s => castObjectId env s
  | JOid hex => Some hex
  end.

(** [id.toString()] *)
Definition toString (v : JsId) : string :=
  match v with
  | JStr s => s
  | JOid hex => hex
  end.

(** [[...new Set(l)]]: first occurrences, in insertion order. *)
Definition js_set (l : list JsId) : list JsId :=
  foldl (λ acc x, if decide (x ∈ acc) then acc else acc ++ [x]) [] l.

(** A document of the Notification collection (schema in
    [models/Notification.js]; the timestamps are left out). *)
Record Notification := {
  n_id : string;
  n_user : string;
  n_type : string;
  n_taskId : string;
  n_message : string;
  n_read : bool;
}.

#[global] Instance Notification_eq_dec : EqDecision Notification.
Proof. solve_decision. Defined.

(** The [data] object of the events [task:update], [task:assign] and
    [comment:new], with the fields the handlers read: [taskId],
    [assigneeId], [assignees], [taskCreator] and [task?.title].  A field
    that an emitting controller does not set is empty here. *)
Record Payload := {
  taskId : string;
  assigneeId : string;
  assignees : list string;
  taskCreator : string;
  task_title : option string;
  deleted : bool;
}.

Inductive Data :=
  | EventData (data : Payload)
  | UserDisconnect (userId : string).     (* { userId: socket.userId } *)

Inductive Target :=
  | ToRoom (room : string)     (* io.to(room).emit *)
  | ToAll.                     (* io.emit *)

(** One [emit]: where it was addressed, and the sockets (id ↦ user) that
    were in the addressed room at that moment. *)
Record Emit := {
  e_target : Target;
  e_event : string;
  e_data : Data;
  e_receivers : gmap string string;
}.

Inductive LogEntry :=
  | LogConnected (userId : string)        (* 'User connected:' *)
  | LogDisconnected (userId : string)     (* 'User disconnected:' *)
  | LogNotificationError.                 (* 'Error creating notification:' *)

(** An open socket: its user and the rooms it is in. *)
Record Socket := {
  s_userId : string;
  s_rooms : gset string;
}.

Record State := {
  connectedUsers : gmap string string;   (* Map: userId ↦ socket.id *)
  sockets : gmap string Socket;          (* open sockets, by socket.id *)
  notifications : list Notification;     (* the Notification collection *)
  tasks : gmap string Task;              (* the Task collection, by _id *)
  emitted : list Emit;
  console : list LogEntry;
  created : nat;                         (* documents created so far *)
}.

Definition init : State :=
  {| connectedUsers := ∅; sockets := ∅; notifications := []; tasks := ∅;
     emitted := []; console := []; created := 0 |}.

Definition set_connectedUsers (f : gmap string string → gmap string string)
    (st : State) : State :=
  {| connectedUsers := f (connectedUsers st); sockets := sockets st;
     notifications := notifications st; tasks := tasks st;
     emitted := emitted st; console := console st; created := created st |}.

Definition set_sockets (f : gmap string Socket → gmap string Socket)
    (st : State) : State :=
  {| connectedUsers := connectedUsers st; sockets := f (sockets st);
     notifications := notifications st; tasks := tasks st;
     emitted := emitted st; console := console st; created := created st |}.

Definition set_notifications (f : list Notification → list Notification)
    (st : State) : State :=
  {| connectedUsers := connectedUsers st; sockets := sockets st;
     notifications := f (notifications st); tasks := tasks st;
     emitted := emitted st; console := console st; created := created st |}.

Definition set_tasks (f : gmap string Task → gmap string Task)
    (st : State) : State :=
  {| connectedUsers := connectedUsers st; sockets := sockets st;
     notifications := notifications st; tasks := f (tasks st);
     emitted := emitted st; console := console st; created := created st |}.

Definition log (entry : LogEntry) (st : State) : State :=
  {| connectedUsers := connectedUsers st; sockets := sockets st;
     notifications := notifications st; tasks := tasks st;
     emitted := emitted st; console := console st ++ [entry];
     created := created st |}.

Definition record_emit (e : Emit) (st : State) : State :=
  {| connectedUsers := connectedUsers st; sockets := sockets st;
     notifications := notifications st; tasks := tasks st;
     emitted := emitted st ++ [e]; console := console st;
     created := created st |}.

Definition count_created (st : State) : State :=
  {| connectedUsers := connectedUsers st; sockets := sockets st;
     notifications := notifications st; tasks := tasks st;
     emitted := emitted st; console := console st;
     created := S (created st) |}.

(** ** Message texts *)

Definition dquote : string := String (Ascii.ascii_of_nat 34) EmptyString.

Definition quoted (s : string) : string := dquote +:+ s +:+ dquote.

(** [data.task?.title || 'Unknown'] *)
Definition title_or_unknown (title : option string) : string :=
  match title with
  | Some s => if decide (s = EmptyString) then "Unknown" else s
  | None => "Unknown"
  end.

(** [${task.title}] in a template literal *)
Definition js_string (o : option string) : string := default "undefined" o.

(** ** socket.io: rooms and emits *)

(** [`user:${socket.userId}`] *)
Definition user_room (userId : string) : string := "user:" +:+ userId.

Definition is_user_room (room : string) : bool := String.prefix "user:" room.

Definition room_members (room : string) (st : State) : gmap string string :=
  s_userId <$> filter (λ kv, room ∈ s_rooms kv.2) (sockets st).

Definition all_members (st : State) : gmap string string :=
  s_userId <$> sockets st.

(** [io.to(room).emit(ev, data)] *)
Definition io_to_emit (room ev : string) (data : Data) (st : State) : State :=
  record_emit {| e_target := ToRoom room; e_event := ev; e_data := data;
                 e_receivers := room_members room st |} st.

(** [io.emit(ev, data)] *)
Definition io_emit (ev : string) (data : Data) (st : State) : State :=
  record_emit {| e_target := ToAll; e_event := ev; e_data := data;
                 e_receivers := all_members st |} st.

(** [socket.join(room)] *)
Definition socket_join (sid room : string) (st : State) : State :=
  set_sockets
    (alter (λ s, {| s_userId := s_userId s; s_rooms := s_rooms s ∪ {[room]} |})
       sid) st.

(** What socket.io does itself when a connection passes the middleware:
    the socket is added to the namespace, in the room named by its id. *)
Definition accept (sid userId : string) (st : State) : State :=
  set_sockets (insert sid {| s_userId := userId; s_rooms := {[sid]} |}) st.

(** What socket.io does itself on a disconnect, before the [disconnect]
    handlers run: the socket leaves its rooms and the namespace. *)
Definition close (sid : string) (st : State) : State :=
  set_sockets (delete sid) st.

(** ** notificationController.js *)

Definition notification_types : list string :=
  ["task:assign"; "task:update"; "comment:new"].

(** [Notification.create({user, type, taskId, message})]: the schema casts
    [user] and [taskId] to ObjectIds, wants [type] in the enum and a
    [message]; [read] defaults to false.  [None] is a thrown error. *)
Definition Notification_create (env : Env) (userId : JsId) (type : string)
    (task : JsId) (message : string) (st : State) : option Notification :=
  match castJsId env userId, castJsId env task with
  | Some user, Some tid =>
      if decide (type ∈ notification_types ∧ message ≠ EmptyString)
      then Some {| n_id := newObjectId env (created st); n_user := user;
                   n_type := type; n_taskId := tid; n_message := message;
                   n_read := false |}
      else None
  | _, _ => None
  end.

Definition createNotification (env : Env) (userId : JsId) (type : string)
    (task : JsId) (message : string) (st : State) : State :=
  match Notification_create env userId type task message st with
  | Some n => count_created (set_notifications (λ l, l ++ [n]) st)
  | None => log LogNotificationError st
  end.

(** [Notification.find({ user }).sort('-createdAt')]: the documents of the
    user, the later stored before the earlier.  The timestamps are not
    part of the model: for two documents of the same millisecond the code
    fixes no order, and the statements below do not depend on one. *)
Definition getNotifications (user : string) (st : State) : list Notification :=
  reverse (filter (λ n, n_user n = user) (notifications st)).

Definition mark_read (n : Notification) : Notification :=
  {| n_id := n_id n; n_user := n_user n; n_type := n_type n;
     n_taskId := n_taskId n; n_message := n_message n; n_read := true |}.

(** [Notification.updateMany({ _id: { $in: ids }, user }, { read: true })] *)
Definition Notification_updateMany_read (ids : list string) (user : string)
    (l : list Notification) : list Notification :=
  (λ n, if decide (n_id n ∈ ids ∧ n_user n = user) then mark_read n else n)
    <$> l.

Definition markAsRead (env : Env) (user : string)
    (notificationIds : option (list string)) (st : State) : nat * State :=
  match notificationIds with
  | None | Some [] => (400, st)
  | Some ids =>
      match mapM (castObjectId env) ids with
      | None => (500, st)
      | Some oids =>
          (200, set_notifications (Notification_updateMany_read oids user) st)
      end
  end.

(** [Notification.deleteMany({ user, read: true })] *)
Definition Notification_deleteMany_read (user : string)
    (l : list Notification) : list Notification :=
  filter (λ n, ¬ (n_user n = user ∧ n_read n = true)) l.

Definition deleteReadNotifications (user : string) (st : State) : nat * State :=
  (200, set_notifications (Notification_deleteMany_read user) st).

(** ** socket.js *)

Inductive AuthResult :=
  | AuthenticationError
  | Authenticated (userId : string).

(** The [io.use] middleware; [token] is [socket.handshake.auth.token]. *)
Definition authenticate (env : Env) (token : option string) : AuthResult :=
  match token with
  | None => AuthenticationError
  | Some t =>
      if decide (t = EmptyString) then AuthenticationError
      else match jwt_verify env t with
           | Some userId => Authenticated userId
           | None => AuthenticationError
           end
  end.

(** [connectedUsers.set(socket.userId, socket.id)] *)
Definition register (userId sid : string) (st : State) : State :=
  set_connectedUsers (insert userId sid) st.

(** [connectedUsers.has(userId)] *)
Definition isOnline (userId : string) (st : State) : bool :=
  bool_decide (is_Some (connectedUsers st !! userId)).

(** The body of the [connection] handler, up to the [socket.on] calls. *)
Definition on_connection (sid userId : string) (st : State) : State :=
  socket_join sid (user_room userId)
    (register userId sid (log (LogConnected userId) st)).

Inductive ConnectionState :=
  | Rejected
  | Registered.

(** A connection attempt: the middleware runs first, and socket.io fires
    [connection] only when it called [next()] without an error. *)
Definition connect (env : Env) (token : option string) (sid : string)
    (st : State) : ConnectionState * State :=
  match authenticate env token with
  | AuthenticationError => (Rejected, st)
  | Authenticated userId => (Registered, on_connection sid userId (accept sid userId st))
  end.

(** The two branches that the three event handlers share: a live emit to
    the stored socket id when the Map has the user, a stored notification
    otherwise. *)
Definition notify (env : Env) (ev message : string) (data : Payload)
    (st : State) (userId : string) : State :=
  match connectedUsers st !! userId with
  | Some sid => io_to_emit sid ev (EventData data) st
  | None => createNotification env (JStr userId) ev (JStr (taskId data)) message st
  end.

Definition update_message (data : Payload) : string :=
  "Task " +:+ quoted (title_or_unknown (task_title data)) +:+ " has been updated".

Definition assign_message (data : Payload) : string :=
  "You have been assigned to task " +:+ quoted (title_or_unknown (task_title data)).

Definition comment_message (data : Payload) : string :=
  "New comment on task " +:+ quoted (title_or_unknown (task_title data)).

(** [socket.on('task:update', ...)] *)
Definition on_task_update (env : Env) (data : Payload) (st : State) : State :=
  foldl (notify env "task:update" (update_message data) data) st (assignees data).

(** [socket.on('task:assign', ...)] *)
Definition on_task_assign (env : Env) (data : Payload) (st : State) : State :=
  notify env "task:assign" (assign_message data) data st (assigneeId data).

(** [[data.taskCreator, ...data.assignees]] *)
Definition usersToNotify (data : Payload) : list string :=
  taskCreator data :: assignees data.

(** [socket.on('comment:new', ...)]; [socket_userId] is the user of the
    socket the event came in on. *)
Definition on_comment_new (env : Env) (socket_userId : string) (data : Payload)
    (st : State) : State :=
  foldl (λ st userId,
           if decide (userId = socket_userId) then st
           else notify env "comment:new" (comment_message data) data st userId)
    st (usersToNotify data).

(** [socket.on('disconnect', ...)] *)
Definition on_disconnect (userId : string) (st : State) : State :=
  io_emit "user:disconnect" (UserDisconnect userId)
    (set_connectedUsers (delete userId) (log (LogDisconnected userId) st)).

Definition disconnect (sid : string) (st : State) : State :=
  match sockets st !! sid with
  | Some s => on_disconnect (s_userId s) (close sid st)
  | None => st
  end.

(** ** taskController.js *)

(** [req.body], with the fields of a task; a comment is its text and the
    id of its user. *)
Record Body := {
  b_title : option string;
  b_description : option string;
  b_priority : option string;
  b_dueDate : option string;
  b_status : option string;
  b_assignees : option (list string);
  b_createdBy : option string;
  b_comments : option (list (string * string));
}.

(** [Task.create({...})]: the document that is stored, [None] for a thrown
    cast or validation error. *)
Definition Task_create (env : Env) (title description priority dueDate : option string)
    (assignees : list JsId) (createdBy : JsId) (st : State) : option Task :=
  match mapM (castJsId env) assignees, castJsId env createdBy with
  | Some l, Some c =>
      let task := {| t_id := newObjectId env (created st); t_title := title;
                     t_description := description; t_priority := priority;
                     t_dueDate := dueDate; t_status := None;
                     t_assignees := l; t_createdBy := c;
                     t_comments := [] |} in
      if validateTask env task then Some task else None
  | _, _ => None
  end.

Definition save_task (task : Task) (st : State) : State :=
  set_tasks (insert (t_id task) task) st.

(** The cast of a comment of the body: its [user] becomes an ObjectId. *)
Definition castComment (env : Env) (c : string * string) : option (string * string) :=
  match castObjectId env c.2 with
  | Some user => Some (c.1, user)
  | None => None
  end.

(** A field of the update replaces the stored one when it is present. *)
Definition updated_field (new old : option string) : option string :=
  match new with
  | Some v => Some v
  | None => old
  end.

(** [Task.findByIdAndUpdate(id, req.body, { new: true, runValidators: true })]
    on the stored document [task]: every field of the body that is a path
    of the schema is set, [createdBy] among them (the controllers read and
    write it as a path of a task, and no path is taken to be declared
    immutable, as none is in [models/Notification.js]), [status] and
    [comments] as well; [assignees] is the value the controller left in
    [req.body.assignees]. *)
Definition Task_findByIdAndUpdate (env : Env) (task : Task) (body : Body)
    (assignees : option (list JsId)) : option Task :=
  match match assignees with
        | Some l => mapM (castJsId env) l
        | None => Some (t_assignees task)
        end,
        match b_createdBy body with
        | Some c => castObjectId env c
        | None => Some (t_createdBy task)
        end,
        match b_comments body with
        | Some cs => mapM (castComment env) cs
        | None => Some (t_comments task)
        end with
  | Some l, Some c, Some cs =>
      let task' := {| t_id := t_id task;
                      t_title := updated_field (b_title body) (t_title task);
                      t_description := updated_field (b_description body) (t_description task);
                      t_priority := updated_field (b_priority body) (t_priority task);
                      t_dueDate := updated_field (b_dueDate body) (t_dueDate task);
                      t_status := updated_field (b_status body) (t_status task);
                      t_assignees := l; t_createdBy := c;
                      t_comments := cs |} in
      if validateTask env task' then Some task' else None
  | _, _, _ => None
  end.

(** The loops under [// Store notifications for offline users]: one
    [createNotification] for every listed id whose string differs from the
    requester's. *)
Definition store_notifications (env : Env) (user : string) (type : string)
    (task : string) (message : string) (ids : list JsId) (st : State) : State :=
  foldl (λ st a,
           if decide (toString a ≠ user)
           then createNotification env a type (JOid task) message st
           else st)
    st ids.

Definition createTask (env : Env) (user : string) (body : Body) (st : State)
    : nat * State :=
  match b_assignees body with
  | None | Some [] => (400, st)
  | Some assignees =>
      let allAssignees := js_set ((JStr <$> assignees) ++ [JOid user]) in
      match Task_create env (b_title body) (b_description body)
              (b_priority body) (b_dueDate body) allAssignees (JOid user) st with
      | None => (400, st)
      | Some task =>
          let st1 := count_created (save_task task st) in
          let st2 := io_emit "task:assign"
                       (EventData {| taskId := t_id task; assigneeId := user;
                                     assignees := []; taskCreator := EmptyString;
                                     task_title := t_title task; deleted := false |})
                       st1 in
          (201, store_notifications env user "task:assign" (t_id task)
                  ("You have been assigned to task " +:+ quoted (js_string (t_title task)))
                  (JStr <$> assignees) st2)
      end
  end.

(** The check shared by [updateTask] and [addComment]: the requester is
    the creator or one of the assignees. *)
Definition may_touch (user : string) (task : Task) : bool :=
  bool_decide (t_createdBy task = user ∨ user ∈ t_assignees task).

Definition updateTask (env : Env) (user id : string) (body : Body) (st : State)
    : nat * State :=
  match castObjectId env id with
  | None => (400, st)
  | Some tid =>
      match tasks st !! tid with
      | None => (404, st)
      | Some task =>
          if may_touch user task then
            let assignees :=
              (λ l, js_set ((JStr <$> l) ++ [JOid (t_createdBy task)]))
                <$> b_assignees body in
            match Task_findByIdAndUpdate env task body assignees with
            | None => (400, st)
            | Some updatedTask =>
                let st1 := save_task updatedTask st in
                let st2 := io_emit "task:update"
                             (EventData {| taskId := t_id updatedTask;
                                           assigneeId := EmptyString;
                                           assignees := t_assignees updatedTask;
                                           taskCreator := EmptyString;
                                           task_title := t_title updatedTask;
                                           deleted := false |})
                             st1 in
                (200, store_notifications env user "task:update" (t_id updatedTask)
                        ("Task " +:+ quoted (js_string (t_title updatedTask))
                           +:+ " has been updated")
                        (JStr <$> t_assignees updatedTask) st2)
            end
          else (403, st)
      end
  end.

Definition deleteTask (env : Env) (user id : string) (st : State) : nat * State :=
  match castObjectId env id with
  | None => (500, st)
  | Some tid =>
      match tasks st !! tid with
      | None => (404, st)
      | Some task =>
          if decide (t_createdBy task = user) then
            let st1 := set_tasks (delete tid) st in
            let st2 := io_emit "task:update"
                         (EventData {| taskId := t_id task; assigneeId := EmptyString;
                                       assignees := t_assignees task;
                                       taskCreator := EmptyString;
                                       task_title := None; deleted := true |})
                         st1 in
            (200, store_notifications env user "task:update" (t_id task)
                    ("Task " +:+ quoted (js_string (t_title task))
                       +:+ " has been deleted")
                    (JOid <$> t_assignees task) st2)
          else (403, st)
      end
  end.

Definition addComment (env : Env) (user id text : string) (st : State)
    : nat * State :=
  match castObjectId env id with
  | None => (400, st)
  | Some tid =>
      match tasks st !! tid with
      | None => (404, st)
      | Some task =>
          if may_touch user task then
            let task' := {| t_id := t_id task; t_title := t_title task;
                            t_description := t_description task;
                            t_priority := t_priority task;
                            t_dueDate := t_dueDate task;
                            t_status := t_status task;
                            t_assignees := t_assignees task;
                            t_createdBy := t_createdBy task;
                            t_comments := t_comments task ++ [(text, user)] |} in
            if validateTask env task' then
              let st1 := save_task task' st in
              let st2 := io_emit "comment:new"
                           (EventData {| taskId := t_id task; assigneeId := EmptyString;
                                         assignees := t_assignees task;
                                         taskCreator := t_createdBy task;
                                         task_title := t_title task;
                                         deleted := false |})
                           st1 in
              let st3 :=
                if decide (t_createdBy task ≠ user)
                then createNotification env (JOid (t_createdBy task)) "comment:new"
                       (JOid (t_id task))
                       ("New comment on your task " +:+ quoted (js_string (t_title task)))
                       st2
                else st2 in
              (200, store_notifications env user "comment:new" (t_id task)
                      ("New comment on task " +:+ quoted (js_string (t_title task)))
                      (JOid <$> t_assignees task) st3)
            else (400, st)
          else (403, st)
      end
  end.

(** ** The server as a transition system *)

Inductive Event :=
  | Connect (token : option string) (sid : string)
  | Disconnect (sid : string)
  | TaskUpdate (sid : string) (data : Payload)
  | TaskAssign (sid : string) (data : Payload)
  | CommentNew (sid : string) (data : Payload)
  | CreateTask (user : string) (body : Body)
  | UpdateTask (user id : string) (body : Body)
  | DeleteTask (user id : string)
  | AddComment (user id text : string)
  | MarkAsRead (user : string) (notificationIds : option (list string))
  | DeleteRead (user : string).

(** An event of an open socket runs the handler that the [connection]
    handler installed on it. *)
Definition on_socket (sid : string) (handler : Socket → State → State)
    (st : State) : State :=
  match sockets st !! sid with
  | Some s => handler s st
  | None => st
  end.

Definition step (env : Env) (st : State) (ev : Event) : State :=
  match ev with
  | Connect token sid => (connect env token sid st).2
  | Disconnect sid => disconnect sid st
  | TaskUpdate sid data => on_socket sid (λ _, on_task_update env data) st
  | TaskAssign sid data => on_socket sid (λ _, on_task_assign env data) st
  | CommentNew sid data => on_socket sid (λ s, on_comment_new env (s_userId s) data) st
  | CreateTask user body => (createTask env user body st).2
  | UpdateTask user id body => (updateTask env user id body st).2
  | DeleteTask user id => (deleteTask env user id st).2
  | AddComment user id text => (addComment env user id text st).2
  | MarkAsRead user ids => (markAsRead env user ids st).2
  | DeleteRead user => (deleteReadNotifications user st).2
  end.

(** The engine gives a new connection an id that no open socket has; its
    ids are drawn from the URL-safe base64 alphabet, so none starts with
    [user:]. *)
Definition enabled (st : State) (ev : Event) : Prop :=
  match ev with
  | Connect _ sid => sockets st !! sid = None ∧ is_user_room sid = false
  | _ => True
  end.

Inductive reachable (env : Env) : State → Prop :=
  | reachable_init : reachable env init
  | reachable_step st ev :
      reachable env st → enabled st ev → reachable env (step env st ev).

Definition run (env : Env) (evs : list Event) (st : State) : State :=
  foldl (step env) st evs.

(** ** A concrete environment and the scenarios used below *)

Definition is_hex_digit (c : Ascii.ascii) : bool :=
  let n := Ascii.nat_of_ascii c in
  ((48 <=? n)%nat && (n <=? 57)%nat) || ((97 <=? n)%nat && (n <=? 102)%nat).

(** An ObjectId string: twenty-four hexadecimal digits. *)
Definition hex24 (s : string) : option string :=
  if (String.length s =? 24)%nat && forallb is_hex_digit (String.list_ascii_of_string s)
  then Some s else None.

Definition hex_digit (n : nat) : string :=
  String.substring (n mod 16) 1 "0123456789abcdef".

Definition demo_newObjectId (n : nat) : string :=
  "d0c0000000000000000000" +:+ hex_digit (n / 16) +:+ hex_digit n.

(** Tokens of the form [jwt.<id>] verify; everything else throws. *)
Definition demo_jwt_verify (token : string) : option string :=
  if String.prefix "jwt." token
  then Some (String.substring 4 (String.length token - 4) token)
  else None.

Definition demo : Env :=
  {| jwt_verify := demo_jwt_verify;
     castObjectId := hex24;
     newObjectId := demo_newObjectId;
     validateTask := λ task, bool_decide (is_Some (t_title task)) |}.

Definition u1 : string := "0000000000000000000000a1".
Definition u2 : string := "0000000000000000000000a2".
Definition u3 : string := "0000000000000000000000a3".
Definition task1 : string := "0000000000000000000000f1".

Definition token_of (userId : string) : option string := Some ("jwt." +:+ userId).

Definition payload (task : string) (assignee : string) (l : list string)
    (creator : string) : Payload :=
  {| taskId := task; assigneeId := assignee; assignees := l;
     taskCreator := creator; task_title := Some "Report"; deleted := false |}.

(** [u1] online on socket [s1], [u2] offline. *)
Definition one_online : State := run demo [Connect (token_of u1) "s1"] init.

(** [u1] and [u2] online. *)
Definition two_online : State :=
  run demo [Connect (token_of u1) "s1"; Connect (token_of u2) "s2"] init.

(** [u1] with two open connections, [s1] then [s2]. *)
Definition two_devices : State :=
  run demo [Connect (token_of u1) "s1"; Connect (token_of u1) "s2"] init.

Definition body_of (title : string) (l : list string) : Body :=
  {| b_title := Some title; b_description := None; b_priority := None;
     b_dueDate := None; b_status := None; b_assignees := Some l;
     b_createdBy := None; b_comments := None |}.

(** [u2] online on socket [s2], [u1] offline. *)
Definition other_online : State := run demo [Connect (token_of u2) "s2"] init.

(** [u1] has closed the second of its two connections: [s1] is open, the
    Map has no entry for [u1]. *)
Definition one_device_left : State :=
  run demo [Connect (token_of u1) "s1"; Connect (token_of u1) "s2";
            Disconnect "s2"] init.

(** The task that [u1] created for [u2], and its id. *)
Definition with_task (st : State) : State :=
  step demo st (CreateTask u1 (body_of "Report" [u2])).

Definition first_id : string := demo_newObjectId 0.

(** A request body that sets [assignees] and [createdBy] together. *)
Definition reassigning_body : Body :=
  {| b_title := None; b_description := None; b_priority := None;
     b_dueDate := None; b_status := None; b_assignees := Some [u2];
     b_createdBy := Some u3; b_comments := None |}.


(** The pushes of [l] that reached a socket of [userId], and the stored
    notifications of [userId]. *)
Definition pushes_to (userId : string) (l : list Emit) : list Emit :=
  filter (λ e, map_Exists (λ _ u, u = userId) (e_receivers e)) l.

Definition records_of (userId : string) (l : list Notification) : list Notification :=
  filter (λ n, n_user n = userId) l.

(** ** Properties of states, emits and recipients *)

(** An entry of the Map names an open socket of that user. *)
Definition registry_sound (st : State) : Prop :=
  ∀ userId sid, connectedUsers st !! userId = Some sid →
    ∃ s, sockets st !! sid = Some s ∧ s_userId s = userId.

(** An open socket is in its own room and in its user's room, and its id
    is not the name of a user room. *)
Definition rooms_standard (st : State) : Prop :=
  ∀ sid s, sockets st !! sid = Some s →
    s_rooms s = {[sid]} ∪ {[user_room (s_userId s)]} ∧ is_user_room sid = false.

(** The socket of [userId] with id [sid], once the [connection] handler
    has run. *)
Definition joined (userId sid : string) : Socket :=
  {| s_userId := userId; s_rooms := {[sid]} ∪ {[user_room userId]} |}.

Definition well_formed (st : State) : Prop :=
  registry_sound st ∧ rooms_standard st.

(** The emit was published on the user's own topic. *)
Definition published_to_topic (userId : string) (e : Emit) : Prop :=
  e_target e = ToRoom (user_room userId).

(** The emit reached every open connection of the user. *)
Definition reaches_every_connection (st : State) (userId : string) (e : Emit) : Prop :=
  ∀ sid s, sockets st !! sid = Some s → s_userId s = userId →
    e_receivers e !! sid = Some userId.

(** What the socket handlers do for one recipient, read off the registry
    [m] alone: a push to the stored socket, a stored notification, or a
    failed store. *)
Inductive Outcome :=
  | Pushed (sid : string)
  | Stored (user : string)
  | Failed.

Definition outcome (env : Env) (type task message : string)
    (m : gmap string string) (userId : string) : Outcome :=
  match m !! userId with
  | Some sid => Pushed sid
  | None =>
      match castObjectId env userId, castObjectId env task with
      | Some user, Some _ =>
          if decide (type ∈ notification_types ∧ message ≠ EmptyString)
          then Stored user else Failed
      | _, _ => Failed
      end
  end.

Definition pushed (o : Outcome) : option string :=
  match o with Pushed sid => Some sid | _ => None end.

Definition stored (o : Outcome) : option string :=
  match o with Stored user => Some user | _ => None end.

Definition failed (o : Outcome) : option LogEntry :=
  match o with Failed => Some LogNotificationError | _ => None end.

(** The emit of a push to the socket id [sid], and what a notification
    stored by a socket handler looks like. *)
Definition push (st : State) (ev : string) (data : Payload) (sid : string) : Emit :=
  {| e_target := ToRoom sid; e_event := ev; e_data := EventData data;
     e_receivers := room_members sid st |}.

Definition fallback_record (env : Env) (ev message : string) (data : Payload)
    (n : Notification) : Prop :=
  n_type n = ev ∧ castObjectId env (taskId data) = Some (n_taskId n)
  ∧ n_message n = message ∧ n_read n = false.

(** The effect of a loop of the socket handlers over the recipients [l],
    from [st] to [st']: the emits, the stored notifications and the
    console grow by what the outcomes of the recipients say, in order. *)
Definition served_one_by_one (env : Env) (ev message : string) (data : Payload)
    (l : list string) (st st' : State) : Prop :=
  let os := outcome env ev (taskId data) message (connectedUsers st) <$> l in
  emitted st' = emitted st ++ (push st ev data <$> omap pushed os)
  ∧ (∃ new, notifications st' = notifications st ++ new
            ∧ n_user <$> new = omap stored os
            ∧ Forall (fallback_record env ev message data) new)
  ∧ console st' = console st ++ omap failed os.

(** ** Further properties of the handlers *)

(** The event opens a socket of [userId], or closes one. *)
Definition touches_presence_of (env : Env) (st : State) (ev : Event)
    (userId : string) : Prop :=
  match ev with
  | Connect token _ => authenticate env token = Authenticated userId
  | Disconnect sid => ∃ s, sockets st !! sid = Some s ∧ s_userId s = userId
  | _ => False
  end.

(** The emit of [disconnect] for the socket [sid] of [userId]. *)
Definition disconnect_notice (sid userId : string) (st : State) : Emit :=
  {| e_target := ToAll; e_event := "user:disconnect";
     e_data := UserDisconnect userId;
     e_receivers := s_userId <$> delete sid (sockets st) |}.

(** What the schema of [models/Notification.js] asks of a document: a
    [type] of the enum and a [message]. *)
Definition valid_notification (n : Notification) : Prop :=
  n_type n ∈ notification_types ∧ n_message n ≠ EmptyString.

(** A notification as a controller stores it: unread, of the given type,
    task and text. *)
Definition stored_as (type task message : string) (n : Notification) : Prop :=
  n_type n = type ∧ n_taskId n = task ∧ n_message n = message ∧ n_read n = false.

(** The texts of [deleteTask] and [addComment]. *)
Definition deleted_message (task : Task) : string :=
  "Task " +:+ quoted (js_string (t_title task)) +:+ " has been deleted".

Definition your_comment_message (task : Task) : string :=
  "New comment on your task " +:+ quoted (js_string (t_title task)).

Definition their_comment_message (task : Task) : string :=
  "New comment on task " +:+ quoted (js_string (t_title task)).

(** The stored task with one more comment. *)
Definition with_comment (text user : string) (task : Task) : Task :=
  {| t_id := t_id task; t_title := t_title task;
     t_description := t_description task; t_priority := t_priority task;
     t_dueDate := t_dueDate task; t_status := t_status task;
     t_assignees := t_assignees task; t_createdBy := t_createdBy task;
     t_comments := t_comments task ++ [(text, user)] |}.

(** The task collection is keyed by [_id] and holds validated documents. *)
Definition tasks_sound (env : Env) (st : State) : Prop :=
  ∀ tid task, tasks st !! tid = Some task →
    t_id task = tid ∧ validateTask env task = true.

Definition documents_sound (env : Env) (st : State) : Prop :=
  Forall valid_notification (notifications st) ∧ tasks_sound env st.

(** [u2] has commented on the task of [with_task]. *)
Definition commented : State :=
  step demo (with_task init) (AddComment u2 first_id "Done").

(** * Proofs *)

(** ** What the handlers leave alone *)

Section Frames.
Context (env : Env).

Lemma createNotification_registry userId type task message st :
  connectedUsers (createNotification env userId type task message st) = connectedUsers st
  ∧ sockets (createNotification env userId type task message st) = sockets st
  ∧ tasks (createNotification env userId type task message st) = tasks st
  ∧ emitted (createNotification env userId type task message st) = emitted st.
Proof.
  unfold createNotification.
  destruct (Notification_create env userId type task message st); done.
Qed.

Lemma notify_registry ev message data st userId :
  connectedUsers (notify env ev message data st userId) = connectedUsers st
  ∧ sockets (notify env ev message data st userId) = sockets st
  ∧ tasks (notify env ev message data st userId) = tasks st.
Proof.
  unfold notify. destruct (connectedUsers st !! userId); [done|].
  destruct (createNotification_registry (JStr userId) ev (JStr (taskId data)) message st)
    as (? & ? & ? & ?).
  done.
Qed.

(** A loop whose body keeps the registry keeps the registry. *)
Lemma foldl_registry {A} (f : State → A → State) (l : list A) st :
  (∀ st x, connectedUsers (f st x) = connectedUsers st ∧ sockets (f st x) = sockets st) →
  connectedUsers (foldl f st l) = connectedUsers st
  ∧ sockets (foldl f st l) = sockets st.
Proof.
  intros Hf. revert st. induction l as [|x l IH]; intros st; [done|].
  simpl. destruct (IH (f st x)) as [-> ->]. apply Hf.
Qed.

Lemma on_task_update_registry data st :
  connectedUsers (on_task_update env data st) = connectedUsers st
  ∧ sockets (on_task_update env data st) = sockets st.
Proof.
  apply foldl_registry. intros st' u.
  destruct (notify_registry "task:update" (update_message data) data st' u) as (? & ? & ?).
  done.
Qed.

Lemma on_task_assign_registry data st :
  connectedUsers (on_task_assign env data st) = connectedUsers st
  ∧ sockets (on_task_assign env data st) = sockets st.
Proof.
  destruct (notify_registry "task:assign" (assign_message data) data st (assigneeId data))
    as (? & ? & ?).
  done.
Qed.

Lemma on_comment_new_registry user data st :
  connectedUsers (on_comment_new env user data st) = connectedUsers st
  ∧ sockets (on_comment_new env user data st) = sockets st.
Proof.
  apply foldl_registry. intros st' u. case_decide; [done|].
  destruct (notify_registry "comment:new" (comment_message data) data st' u) as (? & ? & ?).
  done.
Qed.

Lemma store_notifications_registry user type task message ids st :
  connectedUsers (store_notifications env user type task message ids st) = connectedUsers st
  ∧ sockets (store_notifications env user type task message ids st) = sockets st.
Proof.
  apply foldl_registry. intros st' a. case_decide; [|done].
  destruct (createNotification_registry a type (JOid task) message st') as (? & ? & ? & ?).
  done.
Qed.

(** Rewrites the registry after the loop of a controller to the registry
    before it. *)
Ltac store_frame :=
  match goal with
  | |- context [store_notifications ?e ?u ?t ?k ?m ?i ?s] =>
      destruct (store_notifications_registry u t k m i s) as [-> ->]
  end.

Lemma createTask_registry user body st :
  connectedUsers (createTask env user body st).2 = connectedUsers st
  ∧ sockets (createTask env user body st).2 = sockets st.
Proof.
  unfold createTask. destruct (b_assignees body) as [[|a l]|]; [done| |done].
  destruct (Task_create _ _ _ _ _ _ _ _); [|done]. cbn [snd].
  store_frame.
  done.
Qed.

Lemma updateTask_registry user id body st :
  connectedUsers (updateTask env user id body st).2 = connectedUsers st
  ∧ sockets (updateTask env user id body st).2 = sockets st.
Proof.
  unfold updateTask. destruct (castObjectId env id); [|done].
  destruct (tasks st !! _); [|done]. destruct (may_touch _ _); [|done].
  destruct (Task_findByIdAndUpdate _ _ _ _); [|done]. cbn [snd].
  store_frame.
  done.
Qed.

Lemma deleteTask_registry user id st :
  connectedUsers (deleteTask env user id st).2 = connectedUsers st
  ∧ sockets (deleteTask env user id st).2 = sockets st.
Proof.
  unfold deleteTask. destruct (castObjectId env id); [|done].
  destruct (tasks st !! _); [|done]. case_decide; [|done]. cbn [snd].
  store_frame.
  done.
Qed.

Lemma addComment_registry user id text st :
  connectedUsers (addComment env user id text st).2 = connectedUsers st
  ∧ sockets (addComment env user id text st).2 = sockets st.
Proof.
  unfold addComment. destruct (castObjectId env id); [|done].
  destruct (tasks st !! _); [|done]. destruct (may_touch _ _); [|done].
  destruct (validateTask _ _); [|done]. cbn [snd].
  store_frame.
  case_decide; [|done].
  match goal with |- context [createNotification ?e ?u ?t ?k ?m ?s] =>
    destruct (createNotification_registry u t k m s) as (? & ? & ? & ?) end.
  done.
Qed.

Lemma markAsRead_registry user ids st :
  connectedUsers (markAsRead env user ids st).2 = connectedUsers st
  ∧ sockets (markAsRead env user ids st).2 = sockets st.
Proof.
  unfold markAsRead. destruct ids as [[|i l]|]; [done| |done].
  destruct (mapM _ _); done.
Qed.

End Frames.

(** ** Connecting and disconnecting *)

Section Presence.
Context (env : Env).

Lemma connect_registered token sid st userId :
  authenticate env token = Authenticated userId →
  connect env token sid st
  = (Registered, on_connection sid userId (accept sid userId st))
  ∧ connectedUsers (connect env token sid st).2 = <[userId := sid]> (connectedUsers st)
  ∧ sockets (connect env token sid st).2 = <[sid := joined userId sid]> (sockets st).
Proof.
  intros Hauth. unfold connect. rewrite Hauth. split; [done|]. split; [done|].
  cbn. by rewrite alter_insert_eq.
Qed.

Lemma connect_rejected token sid st :
  authenticate env token = AuthenticationError →
  connect env token sid st = (Rejected, st).
Proof. intros Hauth. unfold connect. by rewrite Hauth. Qed.

Lemma disconnect_open sid s st :
  sockets st !! sid = Some s →
  connectedUsers (disconnect sid st) = delete (s_userId s) (connectedUsers st)
  ∧ sockets (disconnect sid st) = delete sid (sockets st).
Proof. intros Hs. unfold disconnect. by rewrite Hs. Qed.

Lemma disconnect_closed sid st :
  sockets st !! sid = None → disconnect sid st = st.
Proof. intros Hs. unfold disconnect. by rewrite Hs. Qed.

Lemma is_user_room_user_room userId : is_user_room (user_room userId) = true.
Proof. destruct userId; reflexivity. Qed.

Lemma well_formed_init : well_formed init.
Proof. split; intros ? ? H; cbn in H; by rewrite lookup_empty in H. Qed.

Lemma well_formed_connect token sid st :
  well_formed st → sockets st !! sid = None → is_user_room sid = false →
  well_formed (connect env token sid st).2.
Proof.
  intros [Hreg Hrooms] Hfresh Hsid.
  destruct (authenticate env token) as [|userId] eqn:Hauth.
  { rewrite connect_rejected; done. }
  destruct (connect_registered token sid st userId Hauth) as (_ & Hc & Hs).
  split.
  - intros u k. rewrite Hc, Hs. intros Hu.
    destruct (decide (userId = u)) as [->|Hne].
    + rewrite lookup_insert_eq in Hu. injection Hu as <-.
      exists (joined u sid). by rewrite lookup_insert_eq.
    + rewrite lookup_insert_ne in Hu by done.
      destruct (Hreg u k Hu) as (s & Hk & Hown).
      exists s. split; [|done].
      rewrite lookup_insert_ne; [done|]. intros ->. congruence.
  - intros k s. rewrite Hs. intros Hk.
    destruct (decide (sid = k)) as [->|Hne].
    + rewrite lookup_insert_eq in Hk. injection Hk as <-. done.
    + rewrite lookup_insert_ne in Hk by done. by apply Hrooms.
Qed.

Lemma well_formed_disconnect sid st :
  well_formed st → well_formed (disconnect sid st).
Proof.
  intros [Hreg Hrooms].
  destruct (sockets st !! sid) as [s|] eqn:Hsid;
    [|by rewrite disconnect_closed].
  destruct (disconnect_open sid s st Hsid) as [Hc Hs].
  split.
  - intros u k. rewrite Hc, Hs. intros Hu.
    apply lookup_delete_Some in Hu as [Hne Hu].
    destruct (Hreg u k Hu) as (s' & Hk & Hown).
    exists s'. split; [|done].
    rewrite lookup_delete_ne; [done|]. intros ->. congruence.
  - intros k s'. rewrite Hs. intros Hk.
    apply lookup_delete_Some in Hk as [_ Hk]. by apply Hrooms.
Qed.

Lemma well_formed_frame st st' :
  connectedUsers st' = connectedUsers st ∧ sockets st' = sockets st →
  well_formed st → well_formed st'.
Proof.
  intros [Hc Hs] [Hreg Hrooms]. split.
  - intros u k. rewrite Hc, Hs. apply Hreg.
  - intros k s. rewrite Hs. apply Hrooms.
Qed.

Lemma well_formed_step st ev :
  well_formed st → enabled st ev → well_formed (step env st ev).
Proof.
  intros Hwf Hen. destruct ev; cbn [step].
  - destruct Hen as [Hfresh Hsid]. by apply well_formed_connect.
  - by apply well_formed_disconnect.
  - unfold on_socket. destruct (sockets st !! sid); [|done].
    eapply well_formed_frame; [apply on_task_update_registry|done].
  - unfold on_socket. destruct (sockets st !! sid); [|done].
    eapply well_formed_frame; [apply on_task_assign_registry|done].
  - unfold on_socket. destruct (sockets st !! sid); [|done].
    eapply well_formed_frame; [apply on_comment_new_registry|done].
  - eapply well_formed_frame; [apply createTask_registry|done].
  - eapply well_formed_frame; [apply updateTask_registry|done].
  - eapply well_formed_frame; [apply deleteTask_registry|done].
  - eapply well_formed_frame; [apply addComment_registry|done].
  - eapply well_formed_frame; [apply markAsRead_registry|done].
  - eapply well_formed_frame; [|done]. done.
Qed.

Lemma reachable_well_formed st : reachable env st → well_formed st.
Proof.
  induction 1 as [|st ev _ IH Hen]; [apply well_formed_init|].
  by apply well_formed_step.
Qed.

(** In a well-formed state the room named by a socket id holds that
    socket and no other. *)
Lemma room_members_socket sid s st :
  rooms_standard st → sockets st !! sid = Some s →
  room_members sid st = {[sid := s_userId s]}.
Proof.
  intros Hrooms Hsid. destruct (Hrooms sid s Hsid) as [Hr Hnot].
  apply map_eq. intros k. unfold room_members. rewrite lookup_fmap.
  destruct (decide (k = sid)) as [->|Hne].
  - rewrite lookup_singleton_eq.
    erewrite (proj2 (map_lookup_filter_Some _ _ sid s)); [done|].
    split; [done|]. cbn. rewrite Hr. by apply elem_of_union_l, elem_of_singleton.
  - rewrite lookup_singleton_ne by done.
    rewrite (proj2 (map_lookup_filter_None _ _ k)); [done|].
    destruct (sockets st !! k) as [s'|] eqn:Hk; [right|by left].
    intros x [= <-]. cbn. destruct (Hrooms k s' Hk) as [Hr' _]. rewrite Hr'.
    intros [Hin|Hin]%elem_of_union.
    + apply elem_of_singleton in Hin. congruence.
    + apply elem_of_singleton in Hin. rewrite Hin in Hnot.
      by rewrite is_user_room_user_room in Hnot.
Qed.

End Presence.

(** ** The presence registry *)

(** C6: a connection attempt whose token is absent, empty, or rejected by
    [jwt.verify] is rejected by the middleware: the [connection] handler
    never runs, so the state is the one before the attempt (no entry in
    [connectedUsers], no socket, no room joined) and the attempt ends in
    [Rejected], never in [Registered]. *)
Theorem failed_authentication_registers_nothing (env : Env)
    (token : option string) (sid : string) (st : State) :
  (token = None ∨ token = Some EmptyString
   ∨ ∃ t, token = Some t ∧ jwt_verify env t = None) →
  authenticate env token = AuthenticationError
  ∧ connect env token sid st = (Rejected, st)
  ∧ step env st (Connect token sid) = st.
Proof.
  intros Hbad.
  assert (authenticate env token = AuthenticationError) as Hauth.
  { destruct Hbad as [->|[->|(t & -> & Hv)]]; [done|done|].
    cbn. case_decide; [done|]. by rewrite Hv. }
  split; [done|]. cbn [step]. by rewrite connect_rejected.
Qed.

Lemma failed_authentication_witness :
  (Some "forged" = None ∨ Some "forged" = Some EmptyString
   ∨ ∃ t, Some "forged" = Some t ∧ jwt_verify demo t = None)
  ∧ connect demo (Some "forged") "s9" one_online = (Rejected, one_online).
Proof.
  assert (Some "forged" = None ∨ Some "forged" = Some EmptyString
          ∨ ∃ t, Some "forged" = Some t ∧ jwt_verify demo t = None) as H.
  { right. right. exists "forged". split; reflexivity. }
  split; [exact H|].
  exact (proj1 (proj2 (failed_authentication_registers_nothing
                         demo (Some "forged") "s9" one_online H))).
Defined.

(** C8: [connectedUsers.set(userId, socket.id)] twice with the same
    arguments leaves the registry as one call does, with the one socket id
    under the user; the same holds for the whole [connection] handler on
    the registry and on the rooms. *)
Theorem register_idempotent (userId sid : string) (st : State) :
  register userId sid (register userId sid st) = register userId sid st
  ∧ connectedUsers (register userId sid (register userId sid st)) !! userId = Some sid
  ∧ connectedUsers (on_connection sid userId (on_connection sid userId st))
    = connectedUsers (on_connection sid userId st)
  ∧ sockets (on_connection sid userId (on_connection sid userId st))
    = sockets (on_connection sid userId st).
Proof.
  split; [|split; [|split]].
  - unfold register, set_connectedUsers. cbn. by rewrite insert_insert_eq.
  - cbn. rewrite insert_insert_eq. apply lookup_insert_eq.
  - cbn. by rewrite insert_insert_eq.
  - cbn. apply map_eq. intros k.
    destruct (decide (sid = k)) as [<-|Hne];
      [rewrite !lookup_alter_eq|by rewrite !lookup_alter_ne].
    destruct (sockets st !! sid) as [s|]; [|done].
    cbn. do 2 f_equal. by rewrite <-(assoc_L (∪)), (idemp_L (∪)).
Qed.

(** What the registry does with two connections of one user, in general:
    an entry of [connectedUsers] names an open socket of its user; after
    the two connections the user is online; the [disconnect] of either
    socket deletes the entry while the other socket is still open. *)
Lemma presence_is_single_slot (env : Env) (st : State)
    (token : option string) (userId s1 s2 : string) :
  reachable env st →
  authenticate env token = Authenticated userId →
  s1 ≠ s2 →
  let st2 := (connect env token s2 (connect env token s1 st).2).2 in
  registry_sound st
  ∧ isOnline userId st2 = true
  ∧ isOnline userId (disconnect s1 st2) = false
  ∧ sockets (disconnect s1 st2) !! s2 = Some (joined userId s2)
  ∧ isOnline userId (disconnect s2 st2) = false
  ∧ sockets (disconnect s2 st2) !! s1 = Some (joined userId s1)
  ∧ isOnline userId (disconnect s2 (disconnect s1 st2)) = false
  ∧ connectedUsers (disconnect s2 (disconnect s1 st2)) !! userId = None.
Proof.
  intros Hreach Hauth Hne st2.
  split; [apply (reachable_well_formed env st Hreach)|].
  destruct (connect_registered env token s1 st userId Hauth) as (_ & Hc1 & Hs1).
  destruct (connect_registered env token s2 (connect env token s1 st).2 userId Hauth)
    as (_ & Hc2 & Hs2).
  fold st2 in Hc2, Hs2.
  assert (sockets st2 !! s1 = Some (joined userId s1)) as Hopen1.
  { rewrite Hs2, Hs1, lookup_insert_ne by done. apply lookup_insert_eq. }
  assert (sockets st2 !! s2 = Some (joined userId s2)) as Hopen2.
  { rewrite Hs2. apply lookup_insert_eq. }
  destruct (disconnect_open s1 _ st2 Hopen1) as [Hd1c Hd1s].
  destruct (disconnect_open s2 _ st2 Hopen2) as [Hd2c Hd2s].
  cbn [s_userId joined] in Hd1c, Hd2c.
  assert (sockets (disconnect s1 st2) !! s2 = Some (joined userId s2)) as Hleft.
  { rewrite Hd1s, lookup_delete_ne by done. exact Hopen2. }
  destruct (disconnect_open s2 _ (disconnect s1 st2) Hleft) as [Hd3c _].
  cbn [s_userId joined] in Hd3c.
  unfold isOnline.
  repeat split.
  - rewrite Hc2, lookup_insert_eq. by apply bool_decide_eq_true.
  - rewrite Hd1c, lookup_delete_eq. apply bool_decide_eq_false. by intros [? ?].
  - exact Hleft.
  - rewrite Hd2c, lookup_delete_eq. apply bool_decide_eq_false. by intros [? ?].
  - rewrite Hd2s, lookup_delete_ne by done. exact Hopen1.
  - rewrite Hd3c, lookup_delete_eq. apply bool_decide_eq_false. by intros [? ?].
  - rewrite Hd3c. apply lookup_delete_eq.
Qed.

(** C3, failing input: [u1] connects on [s1] and then on [s2], so that the
    Map holds [s2] for [u1]; then [s1] disconnects.  The handler deletes
    the entry of [u1] without looking at the socket id it holds: [u1] is
    no longer online and has no entry although [s2], the socket the entry
    named, is open and in the room of [u1].  A [task:assign] for [u1] that
    follows is stored as a notification and pushed to no one. *)
Theorem stale_disconnect_deletes_live_entry :
  connectedUsers two_devices !! u1 = Some "s2"
  ∧ isOnline u1 two_devices = true
  ∧ sockets two_devices !! "s1" = Some (joined u1 "s1")
  ∧ isOnline u1 (disconnect "s1" two_devices) = false
  ∧ connectedUsers (disconnect "s1" two_devices) !! u1 = None
  ∧ sockets (disconnect "s1" two_devices) !! "s2" = Some (joined u1 "s2")
  ∧ e_event <$> emitted (on_task_assign demo (payload task1 u1 [] u2)
                           (disconnect "s1" two_devices)) = ["user:disconnect"]
  ∧ n_user <$> notifications (on_task_assign demo (payload task1 u1 [] u2)
                                (disconnect "s1" two_devices)) = [u1].
Proof. vm_compute. done. Qed.

(** Where a push of the socket handlers goes, in general: for a recipient
    with an entry in [connectedUsers] it is addressed to the socket id of
    the entry; in a reachable state that one socket receives it, and no
    notification is stored. *)
Lemma push_goes_to_the_stored_socket (env : Env) (st : State)
    (ev message : string) (data : Payload) (userId sid : string) :
  reachable env st →
  connectedUsers st !! userId = Some sid →
  emitted (notify env ev message data st userId)
  = emitted st ++ [ {| e_target := ToRoom sid; e_event := ev;
                       e_data := EventData data;
                       e_receivers := {[sid := userId]} |} ]
  ∧ sid ≠ user_room userId
  ∧ notifications (notify env ev message data st userId) = notifications st.
Proof.
  intros Hreach Hentry.
  destruct (reachable_well_formed env st Hreach) as [Hreg Hrooms].
  destruct (Hreg userId sid Hentry) as (s & Hs & Hown).
  unfold notify. rewrite Hentry. cbn.
  rewrite (room_members_socket sid s st Hrooms Hs), Hown.
  split; [done|]. split; [|done].
  intros ->. destruct (Hrooms _ s Hs) as [_ Hnot].
  by rewrite is_user_room_user_room in Hnot.
Qed.

(** C4, failing input: [u1] has the sockets [s1] and [s2] open, and the
    [connection] handler has joined both to the room [user:u1].  The one
    emit of a [task:assign] for [u1] is addressed to the socket id [s2]
    that the Map holds, not to that room: [s2] alone receives it, and
    [s1], a connection of the same user, does not. *)
Theorem push_bypasses_the_user_room :
  room_members (user_room u1) two_devices = {[ "s1" := u1; "s2" := u1 ]}
  ∧ connectedUsers two_devices !! u1 = Some "s2"
  ∧ ∃ e, emitted (on_task_assign demo (payload task1 u1 [] u2) two_devices) = [e]
         ∧ e_target e = ToRoom "s2"
         ∧ e_receivers e = {[ "s2" := u1 ]}
         ∧ ¬ published_to_topic u1 e
         ∧ ¬ reaches_every_connection two_devices u1 e.
Proof.
  split; [vm_compute; reflexivity|]. split; [reflexivity|].
  eexists. split; [vm_compute; reflexivity|].
  split; [reflexivity|]. split; [vm_compute; reflexivity|]. split.
  - unfold published_to_topic. cbn. discriminate.
  - intros Hall.
    specialize (Hall "s1" (joined u1 "s1")).
    assert (sockets two_devices !! "s1" = Some (joined u1 "s1")) as Hs
      by (vm_compute; reflexivity).
    specialize (Hall Hs eq_refl). vm_compute in Hall. discriminate.
Qed.

(** ** The loop of the socket handlers *)

Section Dispatch.
Context (env : Env).

Lemma room_members_frame room st st' :
  sockets st' = sockets st → room_members room st' = room_members room st.
Proof. intros H. unfold room_members. by rewrite H. Qed.

(** [createNotification] always returns: it has stored one notification,
    or it has written one line on the console and stored nothing. *)
Lemma createNotification_outcome userId type task message st :
  (∃ n, Notification_create env userId type task message st = Some n
        ∧ notifications (createNotification env userId type task message st)
          = notifications st ++ [n]
        ∧ console (createNotification env userId type task message st) = console st)
  ∨ (Notification_create env userId type task message st = None
     ∧ notifications (createNotification env userId type task message st)
       = notifications st
     ∧ console (createNotification env userId type task message st)
       = console st ++ [LogNotificationError]).
Proof.
  unfold createNotification.
  destruct (Notification_create env userId type task message st) as [n|];
    [left; by exists n|by right].
Qed.

(** One recipient: the three things [notify] can do, decided by the
    registry and the recipient alone. *)
Lemma notify_outcome ev message data st userId :
  match outcome env ev (taskId data) message (connectedUsers st) userId with
  | Pushed sid =>
      notify env ev message data st userId = record_emit (push st ev data sid) st
  | Stored user =>
      ∃ n, n_user n = user ∧ fallback_record env ev message data n
           ∧ notify env ev message data st userId
             = count_created (set_notifications (λ l, l ++ [n]) st)
  | Failed =>
      notify env ev message data st userId = log LogNotificationError st
  end.
Proof.
  unfold outcome, notify, createNotification, Notification_create.
  destruct (connectedUsers st !! userId) as [sid|]; [done|]. cbn [castJsId].
  destruct (castObjectId env userId) as [user|]; [|done].
  destruct (castObjectId env (taskId data)) as [tid|] eqn:Htid; [|done].
  case_decide; [|done].
  eexists. split; [|split; [|reflexivity]]; [done|].
  unfold fallback_record. by rewrite Htid.
Qed.

Lemma notify_loop ev message data (l : list string) st :
  served_one_by_one env ev message data l st
    (foldl (notify env ev message data) st l).
Proof.
  unfold served_one_by_one.
  revert st. induction l as [|u l IH]; intros st; cbn zeta.
  { cbn. rewrite !app_nil_r. split; [done|]. split; [|done].
    exists []. by rewrite app_nil_r. }
  cbn [foldl fmap list_fmap].
  destruct (notify_registry env ev message data st u) as (Hc & Hs & _).
  specialize (IH (notify env ev message data st u)). cbn zeta in IH.
  rewrite Hc in IH.
  destruct IH as (He & (new & Hn & Hu & Hall) & Hl).
  rewrite (list_fmap_ext (push (notify env ev message data st u) ev data)
             (push st ev data)) in He
    by (intros _ sid _; unfold push; by rewrite (room_members_frame _ st _ Hs)).
  rewrite He, Hn, Hl. clear He Hn Hl Hc Hs.
  pose proof (notify_outcome ev message data st u) as Hone.
  destruct (outcome env ev (taskId data) message (connectedUsers st) u)
    as [sid|user|]; cbn [omap list_omap pushed stored failed].
  - rewrite Hone. cbn. rewrite <-app_assoc. split; [done|]. split; [|done].
    by exists new.
  - destruct Hone as (n & Hnu & Hrec & ->). cbn. split; [done|]. split; [|done].
    exists (n :: new). rewrite <-app_assoc. split; [done|]. split.
    + cbn. by rewrite Hnu, Hu.
    + by constructor.
  - rewrite Hone. cbn. rewrite <-app_assoc. split; [done|]. split; [|done].
    by exists new.
Qed.

(** A loop that skips one user is the loop over the others. *)
Lemma foldl_skip {A} (f : State → A → State) (P : A → Prop)
    `{!∀ x, Decision (P x)} (l : list A) st :
  foldl (λ st x, if decide (P x) then st else f st x) st l
  = foldl f st (filter (λ x, ¬ P x) l).
Proof.
  revert st. induction l as [|x l IH]; intros st; [done|].
  cbn [foldl]. rewrite filter_cons. destruct (decide (P x)) as [HP|HP].
  - rewrite decide_False by tauto. apply IH.
  - rewrite decide_True by done. cbn [foldl]. apply IH.
Qed.

Lemma on_comment_new_loop user data st :
  on_comment_new env user data st
  = foldl (notify env "comment:new" (comment_message data) data) st
      (filter (λ u, u ≠ user) (usersToNotify data)).
Proof. unfold on_comment_new. apply (foldl_skip _ (λ u, u = user)). Qed.

(** One recipient of a socket handler: with an entry in the Map, one emit
    and nothing stored; without one, nothing emitted, and either one
    notification stored for that user or one line on the console. *)
Lemma notify_online ev message data st userId sid :
  connectedUsers st !! userId = Some sid →
  emitted (notify env ev message data st userId)
  = emitted st ++ [push st ev data sid]
  ∧ notifications (notify env ev message data st userId) = notifications st
  ∧ console (notify env ev message data st userId) = console st.
Proof. intros Hentry. unfold notify. by rewrite Hentry. Qed.

Lemma notify_offline ev message data st userId :
  connectedUsers st !! userId = None →
  emitted (notify env ev message data st userId) = emitted st
  ∧ ((∃ n, castObjectId env userId = Some (n_user n)
           ∧ fallback_record env ev message data n
           ∧ notifications (notify env ev message data st userId)
             = notifications st ++ [n]
           ∧ console (notify env ev message data st userId) = console st)
     ∨ (notifications (notify env ev message data st userId) = notifications st
        ∧ console (notify env ev message data st userId)
          = console st ++ [LogNotificationError])).
Proof.
  intros Hentry.
  pose proof (notify_outcome ev message data st userId) as Hone.
  unfold outcome in Hone. rewrite Hentry in Hone.
  destruct (castObjectId env userId) as [user|]; [|by rewrite Hone; split; [|right]].
  destruct (castObjectId env (taskId data)); [|by rewrite Hone; split; [|right]].
  case_decide; [|by rewrite Hone; split; [|right]].
  destruct Hone as (n & Hn & Hrec & ->). split; [done|]. left.
  exists n. by rewrite Hn.
Qed.

(** The controllers store their notifications whatever the registry
    says: two states with the same collection and counter end with the
    same collection. *)
Lemma store_notifications_ignores_presence user type task message ids st1 st2 :
  notifications st1 = notifications st2 → created st1 = created st2 →
  notifications (store_notifications env user type task message ids st1)
  = notifications (store_notifications env user type task message ids st2).
Proof.
  unfold store_notifications. revert st1 st2.
  induction ids as [|a ids IH]; intros st1 st2 Hn Hc; [done|].
  cbn [foldl]. case_decide; [|by apply IH].
  apply IH; unfold createNotification, Notification_create; rewrite Hc;
    destruct (castJsId env a); try done;
    case_decide; try done; cbn; by rewrite ?Hn, ?Hc.
Qed.

End Dispatch.

(** C7: the loops of the socket handlers always return, and what they do
    for a recipient is decided by the registry and that recipient alone:
    every recipient with an entry is pushed to, every other recipient
    whose notification the store accepts gets its record, and every
    recipient whose [createNotification] call fails leaves one line on the
    console and nothing else.  A failure for one recipient changes nothing
    for the others.  This holds for [task:update] over the assignees and
    for [comment:new] over the creator and the assignees other than the
    sender. *)
Theorem fallback_failure_stays_local (env : Env) (user : string)
    (data : Payload) (st : State) :
  served_one_by_one env "task:update" (update_message data) data
    (assignees data) st (on_task_update env data st)
  ∧ served_one_by_one env "comment:new" (comment_message data) data
      (filter (λ u, u ≠ user) (usersToNotify data)) st
      (on_comment_new env user data st).
Proof.
  split; [apply notify_loop|]. rewrite on_comment_new_loop. apply notify_loop.
Qed.

Example one_failure_among_three :
  let st' := on_task_update demo (payload task1 u1 ["not-an-id"; u1; u2] u1) one_online in
  e_target <$> emitted st' = [ToRoom "s1"]
  ∧ n_user <$> notifications st' = [u2]
  ∧ console st' = [LogConnected u1; LogNotificationError].
Proof. vm_compute. done. Qed.

(** ** The notification endpoints *)

Section Notifications.
Context (env : Env).

Lemma updateMany_read_others ids user l :
  filter (λ n, n_user n ≠ user) (Notification_updateMany_read ids user l)
  = filter (λ n, n_user n ≠ user) l.
Proof.
  unfold Notification_updateMany_read.
  induction l as [|n l IH]; [done|]. cbn [fmap list_fmap].
  case_decide as Hmine.
  - destruct Hmine as [_ Hmine].
    rewrite !filter_cons_False; [done| |]; cbn; by intros ?.
  - rewrite !filter_cons. rewrite <-IH. done.
Qed.

Lemma updateMany_read_lookup ids user l i n' :
  Notification_updateMany_read ids user l !! i = Some n' →
  ∃ n, l !! i = Some n
       ∧ (n' = n ∨ (n_user n = user ∧ n_id n ∈ ids ∧ n' = mark_read n)).
Proof.
  unfold Notification_updateMany_read. rewrite list_lookup_fmap.
  destruct (l !! i) as [n|]; [|done]. cbn. intros [= <-].
  exists n. split; [done|]. case_decide as Hmine; [right|by left].
  by destruct Hmine.
Qed.

Lemma deleteMany_read_others user l :
  filter (λ n, n_user n ≠ user) (Notification_deleteMany_read user l)
  = filter (λ n, n_user n ≠ user) l.
Proof.
  unfold Notification_deleteMany_read.
  induction l as [|n l IH]; [done|].
  rewrite (filter_cons _ n l). case_decide as Hkeep.
  - rewrite !filter_cons. by rewrite IH.
  - rewrite IH. rewrite (filter_cons_False _ n l); [done|].
    intros Hother. by destruct Hkeep.
Qed.

Lemma markAsRead_notifications user ids st :
  notifications (markAsRead env user ids st).2 = notifications st
  ∨ ∃ oids, mapM (castObjectId env) (default [] ids) = Some oids
            ∧ notifications (markAsRead env user ids st).2
              = Notification_updateMany_read oids user (notifications st).
Proof.
  unfold markAsRead. destruct ids as [[|i l]|]; [by left| |by left].
  cbn [default]. destruct (mapM _ _) as [oids|]; [right|by left].
  by exists oids.
Qed.

End Notifications.

(** C10: [markAsRead] and [deleteReadNotifications] change the records of
    the requester only.  After either of them the notifications of every
    other user are the same, in the same order; [markAsRead] keeps every
    record in its place and changes at most the [read] flag, to true, of a
    record of the requester that the id list names; and
    [deleteReadNotifications] keeps exactly the records that are not both
    the requester's and read. *)
Theorem notification_mutations_touch_own_records_only (env : Env)
    (user : string) (ids : option (list string)) (st : State) :
  let st1 := (markAsRead env user ids st).2 in
  let st2 := (deleteReadNotifications user st).2 in
  filter (λ n, n_user n ≠ user) (notifications st1)
  = filter (λ n, n_user n ≠ user) (notifications st)
  ∧ filter (λ n, n_user n ≠ user) (notifications st2)
    = filter (λ n, n_user n ≠ user) (notifications st)
  ∧ length (notifications st1) = length (notifications st)
  ∧ (∀ i n', notifications st1 !! i = Some n' →
       ∃ n, notifications st !! i = Some n
            ∧ (n' = n ∨ (n_user n = user ∧ n' = mark_read n)))
  ∧ (∀ n, n ∈ notifications st2 ↔
          n ∈ notifications st ∧ ¬ (n_user n = user ∧ n_read n = true)).
Proof.
  cbn zeta. split; [|split; [|split; [|split]]].
  - destruct (markAsRead_notifications env user ids st) as [->|(oids & _ & ->)];
      [done|apply updateMany_read_others].
  - apply deleteMany_read_others.
  - destruct (markAsRead_notifications env user ids st) as [->|(oids & _ & ->)];
      [done|]. unfold Notification_updateMany_read. apply length_fmap.
  - intros i n'.
    destruct (markAsRead_notifications env user ids st) as [->|(oids & _ & ->)].
    + intros Hi. exists n'. by split; [|left].
    + intros Hi. destruct (updateMany_read_lookup _ _ _ _ _ Hi) as (n & Hn & Hcase).
      exists n. split; [done|]. destruct Hcase as [->|(? & _ & ->)]; [by left|by right].
  - intros n. cbn. unfold Notification_deleteMany_read.
    rewrite list_elem_of_filter. tauto.
Qed.

(** ** The creator among the assignees *)

Section Assignees.
Context (env : Env).

Lemma elem_of_js_set x l : x ∈ js_set l ↔ x ∈ l.
Proof.
  unfold js_set.
  assert (∀ acc, x ∈ foldl (λ acc y, if decide (y ∈ acc) then acc else acc ++ [y]) acc l
                 ↔ x ∈ acc ∨ x ∈ l) as Hgen.
  { induction l as [|y l IH]; intros acc; cbn [foldl].
    - rewrite elem_of_nil. tauto.
    - rewrite IH, elem_of_cons. case_decide as Hy.
      + split; [tauto|]. intros [?|[->|?]]; tauto.
      + rewrite elem_of_app, list_elem_of_singleton. tauto. }
  rewrite Hgen, elem_of_nil. tauto.
Qed.

Lemma mapM_cast_object l l' hex :
  mapM (castJsId env) l = Some l' → JOid hex ∈ l → hex ∈ l'.
Proof.
  intros Hcast%mapM_Some [i Hi]%list_elem_of_lookup.
  destruct (Forall2_lookup_l _ _ _ _ _ Hcast Hi) as (y & Hy & [= <-]).
  apply list_elem_of_lookup. by exists i.
Qed.

Lemma creator_in_union (l : list string) creator l' :
  mapM (castJsId env) (js_set ((JStr <$> l) ++ [JOid creator])) = Some l' →
  creator ∈ l'.
Proof.
  intros Hcast. apply (mapM_cast_object _ _ _ Hcast).
  apply elem_of_js_set, elem_of_app. right. by apply list_elem_of_singleton.
Qed.

Lemma foldl_tasks {A} (f : State → A → State) (l : list A) st :
  (∀ st x, tasks (f st x) = tasks st) → tasks (foldl f st l) = tasks st.
Proof.
  intros Hf. revert st. induction l as [|x l IH]; intros st; [done|].
  cbn. by rewrite IH.
Qed.

Lemma store_notifications_tasks user type task message ids st :
  tasks (store_notifications env user type task message ids st) = tasks st.
Proof.
  apply foldl_tasks. intros st' a. case_decide; [|done].
  by destruct (createNotification_registry env a type (JOid task) message st')
    as (_ & _ & ? & _).
Qed.

(** [createTask]: a request answered with 201 has stored a task whose
    creator is the requester and is one of its assignees. *)
Lemma createTask_creator_assigned user body st :
  (createTask env user body st).1 = 201 →
  ∃ task, tasks (createTask env user body st).2 !! newObjectId env (created st)
          = Some task
          ∧ t_createdBy task = user ∧ user ∈ t_assignees task.
Proof.
  unfold createTask. destruct (b_assignees body) as [[|a l]|]; [done| |done].
  destruct (Task_create _ _ _ _ _ _ _ _) as [task|] eqn:Hcreate; [|done].
  intros _. cbn [snd]. rewrite store_notifications_tasks. cbn.
  unfold Task_create in Hcreate. cbn [castJsId] in Hcreate.
  destruct (mapM _ _) as [l'|] eqn:Hcast; [|done].
  destruct (validateTask _ _); [|done]. injection Hcreate as <-. cbn.
  rewrite lookup_insert_eq. eexists. split; [done|]. cbn. split; [done|].
  by apply (creator_in_union (a :: l)).
Qed.

(** [updateTask] with an [assignees] list: a request answered with 200
    has stored a task that counts the creator it had before among its
    assignees; that is its creator still, unless the same body set
    [createdBy]. *)
Lemma updateTask_creator_assigned user id body st l :
  b_assignees body = Some l →
  (updateTask env user id body st).1 = 200 →
  ∃ tid old new,
    castObjectId env id = Some tid ∧ tasks st !! tid = Some old
    ∧ tasks (updateTask env user id body st).2 !! t_id old = Some new
    ∧ t_createdBy old ∈ t_assignees new
    ∧ (b_createdBy body = None → t_createdBy new = t_createdBy old).
Proof.
  intros Hl. unfold updateTask.
  destruct (castObjectId env id) as [tid|]; [|done].
  destruct (tasks st !! tid) as [old|] eqn:Hold; [|done].
  destruct (may_touch user old); [|done].
  destruct (Task_findByIdAndUpdate _ _ _ _) as [new|] eqn:Hupd; [|done].
  intros _. cbn [snd]. rewrite store_notifications_tasks. cbn.
  unfold Task_findByIdAndUpdate in Hupd. rewrite Hl in Hupd. cbn in Hupd.
  destruct (mapM _ _) as [l'|] eqn:Hcast; [|done].
  destruct (match b_createdBy body with Some c => _ | None => _ end)
    as [c|] eqn:Hc; [|discriminate Hupd].
  destruct (match b_comments body with Some cs => _ | None => _ end)
    as [cs|]; [|discriminate Hupd].
  destruct (validateTask _ _); [|discriminate Hupd]. injection Hupd as <-. cbn.
  exists tid, old. eexists. rewrite lookup_insert_eq.
  split; [done|]. split; [done|]. split; [done|]. cbn. split.
  - by apply (creator_in_union l).
  - intros Hnone. rewrite Hnone in Hc. by injection Hc as <-.
Qed.

End Assignees.

(** ** Where the code departs from the specification *)

(** C1, failing input: [u1] creates a task for [u2] while both are
    connected.  [createTask] broadcasts [task:assign] with [io.emit], which
    reaches the socket of [u2] (and that of [u1]), and then stores a
    notification for [u2] without looking at [connectedUsers]: the online
    recipient gets the live push and a fallback record. *)
Theorem createTask_stores_for_online_assignee :
  let r := createTask demo u1 (body_of "Report" [u2]) two_online in
  emitted two_online = [] ∧ notifications two_online = []
  ∧ isOnline u2 two_online = true
  ∧ r.1 = 201
  ∧ e_target <$> emitted r.2 = [ToAll]
  ∧ length (pushes_to u2 (emitted r.2)) = 1
  ∧ length (pushes_to u1 (emitted r.2)) = 1
  ∧ n_type <$> records_of u2 (notifications r.2) = ["task:assign"].
Proof. vm_compute. done. Qed.

(** C2, failing input: the user of socket [s1] is [u1].  A [task:assign]
    that [s1] sends for [u1] itself, and a [task:update] whose assignees
    hold [u1], are pushed back to [u1]; when the Map has no entry for
    [u1], the [task:assign] is stored as a notification for [u1].  Only
    [comment:new] skips the user of the sending socket. *)
Theorem acting_user_is_notified :
  s_userId <$> sockets one_online !! "s1" = Some u1
  ∧ emitted one_online = []
  ∧ length (pushes_to u1
      (emitted (step demo one_online (TaskAssign "s1" (payload task1 u1 [] u2))))) = 1
  ∧ length (pushes_to u1
      (emitted (step demo one_online (TaskUpdate "s1" (payload task1 u2 [u1] u2))))) = 1
  ∧ length (pushes_to u1
      (emitted (step demo one_online (CommentNew "s1" (payload task1 u2 [u1] u1))))) = 0
  ∧ s_userId <$> sockets one_device_left !! "s1" = Some u1
  ∧ notifications one_device_left = []
  ∧ n_user <$> notifications
      (step demo one_device_left (TaskAssign "s1" (payload task1 u1 [] u2))) = [u1].
Proof. vm_compute. done. Qed.

(** C5, failing input: [u2] comments on a task that [u1] created and that
    has the assignees [u1] and [u2].  The [comment:new] handler walks
    [taskCreator] and then every assignee, so [u1] is handled twice: two
    pushes when it is online, two stored notifications when it is not.
    [addComment] does the same in the controller: one notification for the
    creator and one more for the creator as an assignee. *)
Theorem comment_reaches_creator_twice :
  emitted two_online = []
  ∧ length (pushes_to u1
      (emitted (step demo two_online (CommentNew "s2" (payload task1 u2 [u1; u2] u1))))) = 2
  ∧ notifications other_online = []
  ∧ n_user <$> notifications
      (step demo other_online (CommentNew "s2" (payload task1 u2 [u1; u2] u1))) = [u1; u1]
  ∧ (t_createdBy <$> tasks (with_task init) !! first_id = Some u1
     ∧ t_assignees <$> tasks (with_task init) !! first_id = Some [u2; u1])
  ∧ n_type <$> records_of u1 (notifications (with_task init)) = []
  ∧ n_type <$> records_of u1
      (notifications (step demo (with_task init) (AddComment u2 first_id "Done")))
    = ["comment:new"; "comment:new"].
Proof. vm_compute. done. Qed.

(** C9, failing input: [u1] created the task for [u2]; an update by [u1]
    whose body carries [assignees: [u2]] and [createdBy: u3] is answered
    with 200.  The controller adds the creator it read before the update,
    [u1], to the list and hands the whole body to [findByIdAndUpdate]: the
    stored task has the creator [u3], who is not among its assignees. *)
Theorem update_can_replace_the_creator :
  let r := updateTask demo u1 first_id reassigning_body (with_task init) in
  t_createdBy <$> tasks (with_task init) !! first_id = Some u1
  ∧ r.1 = 200
  ∧ ∃ task, tasks r.2 !! first_id = Some task
            ∧ t_createdBy task = u3
            ∧ t_assignees task = [u2; u1]
            ∧ t_createdBy task ∉ t_assignees task.
Proof.
  cbn zeta. split; [vm_compute; reflexivity|]. split; [vm_compute; reflexivity|].
  eexists. split; [vm_compute; reflexivity|]. cbn.
  split; [reflexivity|]. split; [reflexivity|].
  intros Hin. vm_compute in Hin. by repeat (apply elem_of_cons in Hin as [?|Hin]; [done|]);
    apply elem_of_nil in Hin.
Qed.

(** * Further properties of the code *)

(** ** The spread of a Set *)

Section JsSet.

Lemma js_set_go_NoDup (l acc : list JsId) :
  NoDup acc →
  NoDup (foldl (λ acc x, if decide (x ∈ acc) then acc else acc ++ [x]) acc l).
Proof.
  revert acc. induction l as [|y l IH]; intros acc Hacc; [done|].
  cbn [foldl]. apply IH. case_decide as Hy; [done|].
  apply NoDup_app. split; [done|]. split; [|apply NoDup_singleton].
  intros x Hx ->%list_elem_of_singleton. done.
Qed.

Lemma js_set_go_NoDup_id (l acc : list JsId) :
  NoDup (acc ++ l) →
  foldl (λ acc x, if decide (x ∈ acc) then acc else acc ++ [x]) acc l = acc ++ l.
Proof.
  revert acc. induction l as [|y l IH]; intros acc Hnd; [by rewrite app_nil_r|].
  cbn [foldl]. apply NoDup_app in Hnd as Hparts. destruct Hparts as (_ & Hdisj & _).
  rewrite decide_False.
  - rewrite IH; rewrite <-app_assoc; done.
  - intros Hy. apply (Hdisj y Hy). by left.
Qed.

Lemma js_set_go_sublist (l acc : list JsId) :
  ∃ k, foldl (λ acc x, if decide (x ∈ acc) then acc else acc ++ [x]) acc l = acc ++ k
       ∧ k `sublist_of` l.
Proof.
  revert acc. induction l as [|y l IH]; intros acc.
  { exists []. by rewrite app_nil_r. }
  cbn [foldl]. case_decide.
  - destruct (IH acc) as (k & -> & Hk). exists k. split; [done|]. by apply sublist_cons.
  - destruct (IH (acc ++ [y])) as (k & -> & Hk). exists (y :: k).
    rewrite <-app_assoc. split; [done|]. by apply sublist_skip.
Qed.

End JsSet.

(** X1: [[...new Set(l)]] has no element twice, has the elements of [l]
    and no other, keeps them in the order of [l], and gives back a list
    that has no duplicates as it is; so taking it twice changes nothing. *)
Theorem js_set_spread (l : list JsId) :
  NoDup (js_set l)
  ∧ (∀ x, x ∈ js_set l ↔ x ∈ l)
  ∧ js_set l `sublist_of` l
  ∧ (NoDup l → js_set l = l)
  ∧ js_set (js_set l) = js_set l.
Proof.
  assert (NoDup (js_set l)) as Hnd by (apply js_set_go_NoDup; constructor).
  split; [done|]. split; [intros x; apply elem_of_js_set|]. split; [|split].
  - destruct (js_set_go_sublist l []) as (k & Hk & Hsub). unfold js_set. by rewrite Hk.
  - intros Hl. by apply (js_set_go_NoDup_id l []).
  - by apply (js_set_go_NoDup_id (js_set l) []).
Qed.

(** ** Requests that are refused *)

(** X3: on a stored task, [updateTask] and [addComment] answer 403 to a
    requester who is neither its creator nor one of its assignees, and
    [deleteTask] answers 403 to everyone but its creator, assignees
    included; nothing is changed. *)
Theorem strangers_are_refused (env : Env) (user id tid text : string)
    (body : Body) (task : Task) (st : State) :
  castObjectId env id = Some tid →
  tasks st !! tid = Some task →
  t_createdBy task ≠ user →
  deleteTask env user id st = (403, st)
  ∧ (user ∉ t_assignees task →
     updateTask env user id body st = (403, st)
     ∧ addComment env user id text st = (403, st)).
Proof.
  intros Hid Htask Hne. split.
  - unfold deleteTask. rewrite Hid, Htask. by rewrite decide_False.
  - intros Hnot.
    assert (may_touch user task = false) as Hno.
    { unfold may_touch. apply bool_decide_eq_false. tauto. }
    unfold updateTask, addComment. by rewrite Hid, Htask, Hno.
Qed.

Lemma strangers_are_refused_witness :
  castObjectId demo first_id = Some first_id
  ∧ (t_createdBy <$> tasks (with_task init) !! first_id) = Some u1
  ∧ deleteTask demo u2 first_id (with_task init) = (403, with_task init)
  ∧ addComment demo u3 first_id "Hello" (with_task init) = (403, with_task init).
Proof.
  assert (castObjectId demo first_id = Some first_id) as Hid by reflexivity.
  destruct (tasks (with_task init) !! first_id) as [task|] eqn:Htask;
    [|by vm_compute in Htask].
  assert (t_createdBy task = u1) as Hby by (vm_compute in Htask; by injection Htask as <-).
  assert (t_assignees task = [u2; u1]) as Hl by (vm_compute in Htask; by injection Htask as <-).
  assert (t_createdBy task ≠ u2) as Hne2 by (rewrite Hby; discriminate).
  assert (t_createdBy task ≠ u3) as Hne3 by (rewrite Hby; discriminate).
  assert (u3 ∉ t_assignees task) as Hnot.
  { rewrite Hl. intros Hin. repeat (apply elem_of_cons in Hin as [?|Hin]; [done|]).
    by apply elem_of_nil in Hin. }
  split; [done|]. split; [cbn; by rewrite Hby|]. split.
  - exact (proj1 (strangers_are_refused demo u2 first_id first_id "Hello"
                    reassigning_body task (with_task init) Hid Htask Hne2)).
  - exact (proj2 (proj2 (strangers_are_refused demo u3 first_id first_id "Hello"
                    reassigning_body task (with_task init) Hid Htask Hne3) Hnot)).
Defined.

(** ** The notifications of [deleteTask] and [addComment] *)

Section Stored.
Context (env : Env).

Lemma createNotification_object hex type task message st :
  type ∈ notification_types → message ≠ EmptyString →
  createNotification env (JOid hex) type (JOid task) message st
  = count_created
      (set_notifications
         (λ l, l ++ [ {| n_id := newObjectId env (created st); n_user := hex;
                         n_type := type; n_taskId := task; n_message := message;
                         n_read := false |} ]) st).
Proof.
  intros Htype Hmsg. unfold createNotification, Notification_create. cbn [castJsId].
  by rewrite decide_True.
Qed.

(** The loop of a controller over stored ObjectIds never fails: it adds
    one notification for every id other than the requester's, in order,
    and nothing else. *)
Lemma store_notifications_objects user type task message (hs : list string) st :
  type ∈ notification_types → message ≠ EmptyString →
  ∃ new,
    notifications (store_notifications env user type task message (JOid <$> hs) st)
    = notifications st ++ new
    ∧ n_user <$> new = filter (λ h, h ≠ user) hs
    ∧ Forall (stored_as type task message) new
    ∧ emitted (store_notifications env user type task message (JOid <$> hs) st)
      = emitted st
    ∧ console (store_notifications env user type task message (JOid <$> hs) st)
      = console st.
Proof.
  intros Htype Hmsg. unfold store_notifications.
  revert st. induction hs as [|h hs IH]; intros st.
  { exists []. by rewrite app_nil_r. }
  cbn [fmap list_fmap foldl toString]. rewrite filter_cons.
  destruct (decide (h ≠ user)) as [Hh|Hh].
  - rewrite createNotification_object by done.
    match goal with |- context [foldl _ ?s _] => destruct (IH s) as (new & Hn & Hu & Hall & He & Hc) end.
    eexists (_ :: new). rewrite Hn, He, Hc. cbn. rewrite <-app_assoc.
    split; [reflexivity|]. split; [by rewrite Hu|]. split; [|done].
    by constructor.
  - destruct (IH st) as (new & Hn & Hu & Hall & He & Hc). by exists new.
Qed.

Lemma notification_types_update : "task:update" ∈ notification_types.
Proof. unfold notification_types. rewrite !elem_of_cons. tauto. Qed.

Lemma notification_types_comment : "comment:new" ∈ notification_types.
Proof. unfold notification_types. rewrite !elem_of_cons. tauto. Qed.

End Stored.

(** X4: [deleteTask] answers 200 only to the creator of a stored task.  It
    then removes that task and no other, broadcasts one [task:update] to
    every open socket, and stores one unread [task:update] notification
    for every assignee other than the requester, in the order of the
    assignees; no store fails and the requester gets none. *)
Theorem deleteTask_effect (env : Env) (user id : string) (st : State) :
  (deleteTask env user id st).1 = 200 →
  ∃ tid task new e,
    castObjectId env id = Some tid ∧ tasks st !! tid = Some task
    ∧ t_createdBy task = user
    ∧ tasks (deleteTask env user id st).2 = delete tid (tasks st)
    ∧ emitted (deleteTask env user id st).2 = emitted st ++ [e]
    ∧ e_target e = ToAll ∧ e_event e = "task:update"
    ∧ e_receivers e = all_members st
    ∧ notifications (deleteTask env user id st).2 = notifications st ++ new
    ∧ n_user <$> new = filter (λ h, h ≠ user) (t_assignees task)
    ∧ Forall (stored_as "task:update" (t_id task) (deleted_message task)) new
    ∧ console (deleteTask env user id st).2 = console st.
Proof.
  unfold deleteTask.
  destruct (castObjectId env id) as [tid|]; [|done].
  destruct (tasks st !! tid) as [task|] eqn:Htask; [|done].
  case_decide as Hby; [|done]. intros _. cbn [snd].
  match goal with |- context [store_notifications ?e ?u ?t ?k ?m (JOid <$> ?hs) ?s] =>
    destruct (store_notifications_objects e u t k m hs s notification_types_update)
      as (new & Hn & Hu & Hall & He & Hc); [done|]
  end.
  exists tid, task, new. eexists. rewrite Hn, He, Hc.
  split; [done|]. split; [done|]. split; [done|]. split.
  { by rewrite store_notifications_tasks. }
  split; [reflexivity|]. done.
Qed.

Lemma deleteTask_effect_witness :
  (deleteTask demo u1 first_id (with_task init)).1 = 200
  ∧ tasks (deleteTask demo u1 first_id (with_task init)).2 !! first_id = None
  ∧ n_user <$> notifications (deleteTask demo u1 first_id (with_task init)).2
    = [u2; u2].
Proof.
  assert ((deleteTask demo u1 first_id (with_task init)).1 = 200) as Hok by reflexivity.
  split; [exact Hok|].
  destruct (deleteTask_effect demo u1 first_id (with_task init) Hok)
    as (tid & task & new & e & Hid & Htask & _ & Ht & _ & _ & _ & _ & Hn & Hu & _).
  injection Hid as <-. split.
  - rewrite Ht. apply lookup_delete_eq.
  - rewrite Hn, fmap_app, Hu.
    vm_compute in Htask. injection Htask as <-. reflexivity.
Defined.

(** X5: [addComment] answers 200 only to the creator or an assignee of a
    stored task.  It then appends the comment to that task, leaves its
    other fields as they were, broadcasts one [comment:new], and stores
    unread [comment:new] notifications: one for the creator unless the
    creator is the requester, then one for every assignee other than the
    requester.  No store fails and the requester gets none. *)
Theorem addComment_effect (env : Env) (user id text : string) (st : State) :
  (addComment env user id text st).1 = 200 →
  ∃ tid task new e,
    castObjectId env id = Some tid ∧ tasks st !! tid = Some task
    ∧ (t_createdBy task = user ∨ user ∈ t_assignees task)
    ∧ tasks (addComment env user id text st).2
      = <[t_id task := with_comment text user task]> (tasks st)
    ∧ emitted (addComment env user id text st).2 = emitted st ++ [e]
    ∧ e_target e = ToAll ∧ e_event e = "comment:new"
    ∧ e_receivers e = all_members st
    ∧ notifications (addComment env user id text st).2 = notifications st ++ new
    ∧ n_user <$> new
      = (if decide (t_createdBy task ≠ user) then [t_createdBy task] else [])
        ++ filter (λ h, h ≠ user) (t_assignees task)
    ∧ Forall (λ n, n_user n ≠ user ∧ n_type n = "comment:new"
                   ∧ n_taskId n = t_id task ∧ n_read n = false) new
    ∧ console (addComment env user id text st).2 = console st.
Proof.
  unfold addComment.
  destruct (castObjectId env id) as [tid|]; [|done].
  destruct (tasks st !! tid) as [task|] eqn:Htask; [|done].
  destruct (may_touch user task) eqn:Hmay; [|done].
  destruct (validateTask _ _); [|done]. intros _. cbn [snd].
  apply bool_decide_eq_true in Hmay.
  match goal with |- context [store_notifications ?e ?u ?t ?k ?m (JOid <$> ?hs) ?s] =>
    destruct (store_notifications_objects e u t k m hs s notification_types_comment)
      as (new & Hn & Hu & Hall & He & Hc); [done|]
  end.
  assert (Forall (λ n, n_user n ≠ user ∧ n_type n = "comment:new"
                       ∧ n_taskId n = t_id task ∧ n_read n = false) new) as Hnew.
  { apply Forall_forall. intros n Hin.
    assert (n_user n ∈ filter (λ h, h ≠ user) (t_assignees task)) as Hf.
    { rewrite <-Hu. by apply list_elem_of_fmap_2. }
    apply list_elem_of_filter in Hf as [Hf _].
    rewrite Forall_forall in Hall. destruct (Hall n Hin) as (? & ? & _ & ?). done. }
  exists tid, task. rewrite Hn, He, Hc, store_notifications_tasks.
  case_decide as Hby.
  - rewrite createNotification_object by (apply notification_types_comment || done).
    eexists (_ :: new), _. cbn. rewrite <-app_assoc.
    do 4 (split; [done|]). split; [reflexivity|]. do 3 (split; [done|]).
    split; [reflexivity|]. split; [by rewrite Hu|]. split; [|done].
    by constructor.
  - exists new. eexists.
    do 4 (split; [done|]). split; [reflexivity|]. done.
Qed.

Lemma addComment_effect_witness :
  (addComment demo u2 first_id "Done" (with_task init)).1 = 200
  ∧ (t_comments <$> tasks commented !! first_id) = Some [("Done", u2)]
  ∧ n_user <$> notifications commented = [u2; u1; u1].
Proof.
  assert ((addComment demo u2 first_id "Done" (with_task init)).1 = 200) as Hok
    by reflexivity.
  split; [exact Hok|].
  destruct (addComment_effect demo u2 first_id "Done" (with_task init) Hok)
    as (tid & task & new & e & Hid & Htask & _ & Ht & _ & _ & _ & _ & Hn & Hu & _).
  injection Hid as <-. vm_compute in Htask. injection Htask as <-.
  unfold commented. cbn [step]. split.
  - rewrite Ht. reflexivity.
  - rewrite Hn, fmap_app, Hu. reflexivity.
Defined.

(** ** Tasks that are created and updated *)

Section Tasks.
Context (env : Env).

Lemma foldl_preserves {A B} (proj : State → B) (f : State → A → State)
    (l : list A) st :
  (∀ st x, proj (f st x) = proj st) → proj (foldl f st l) = proj st.
Proof.
  intros Hf. revert st. induction l as [|x l IH]; intros st; [done|].
  cbn. by rewrite IH.
Qed.

Lemma store_notifications_emitted user type task message ids st :
  emitted (store_notifications env user type task message ids st) = emitted st.
Proof.
  apply (foldl_preserves emitted). intros st' a. case_decide; [|done].
  by destruct (createNotification_registry env a type (JOid task) message st')
    as (_ & _ & _ & ?).
Qed.

(** The ids that a successful cast of a list returns are the casts of
    its elements. *)
Lemma mapM_cast_elem_of (l : list JsId) l' hex :
  mapM (castJsId env) l = Some l' →
  hex ∈ l' ↔ ∃ v, v ∈ l ∧ castJsId env v = Some hex.
Proof.
  intros Hcast%mapM_Some. split.
  - intros [i Hi]%list_elem_of_lookup.
    destruct (Forall2_lookup_r _ _ _ _ _ Hcast Hi) as (v & Hv & Hc).
    exists v. split; [|done]. apply list_elem_of_lookup. by exists i.
  - intros (v & [i Hi]%list_elem_of_lookup & Hc).
    destruct (Forall2_lookup_l _ _ _ _ _ Hcast Hi) as (y & Hy & Hc').
    rewrite Hc in Hc'. injection Hc' as <-. apply list_elem_of_lookup. by exists i.
Qed.

End Tasks.

(** X6: a [createTask] answered with 201 has filed one new task under the
    id it was given, created by the requester, without comments, with the
    title of the body, accepted by the validators; its assignees are the
    requester and the ids of the body, cast, and no one else; the other
    tasks are untouched, and one [task:assign] was broadcast to every open
    socket. *)
Theorem createTask_effect (env : Env) (user : string) (body : Body) (st : State) :
  (createTask env user body st).1 = 201 →
  ∃ task l e,
    b_assignees body = Some l ∧ l ≠ []
    ∧ tasks (createTask env user body st).2 = <[t_id task := task]> (tasks st)
    ∧ t_id task = newObjectId env (created st)
    ∧ t_createdBy task = user ∧ t_comments task = []
    ∧ t_title task = b_title body
    ∧ validateTask env task = true
    ∧ (∀ hex, hex ∈ t_assignees task ↔
              hex = user ∨ ∃ a, a ∈ l ∧ castObjectId env a = Some hex)
    ∧ emitted (createTask env user body st).2 = emitted st ++ [e]
    ∧ e_target e = ToAll ∧ e_event e = "task:assign"
    ∧ e_receivers e = all_members st.
Proof.
  unfold createTask. destruct (b_assignees body) as [[|a l]|]; [done| |done].
  destruct (Task_create _ _ _ _ _ _ _ _) as [task|] eqn:Hcreate; [|done].
  intros _. cbn [snd].
  rewrite store_notifications_tasks, store_notifications_emitted.
  unfold Task_create in Hcreate. cbn [castJsId] in Hcreate.
  destruct (mapM _ _) as [l'|] eqn:Hcast; [|done].
  destruct (validateTask _ _) eqn:Hvalid; [|done]. injection Hcreate as <-.
  eexists _, (a :: l), _. split; [done|]. split; [done|]. split; [reflexivity|].
  cbn [t_id t_createdBy t_comments t_title t_assignees].
  do 5 (split; [done|]). split; [|split; [reflexivity|done]].
  intros hex. rewrite (mapM_cast_elem_of env _ _ hex Hcast). split.
  - intros (v & Hv & Hc). apply elem_of_js_set, elem_of_app in Hv as [Hv|Hv].
    + apply list_elem_of_fmap in Hv as (s & -> & Hs). right. by exists s.
    + apply list_elem_of_singleton in Hv as ->. left. cbn in Hc. congruence.
  - intros [->|(s & Hs & Hc)].
    + exists (JOid user). split; [|done].
      apply elem_of_js_set, elem_of_app. right. by apply list_elem_of_singleton.
    + exists (JStr s). split; [|done].
      apply elem_of_js_set, elem_of_app. left. by apply list_elem_of_fmap_2.
Qed.

Lemma createTask_effect_witness :
  (createTask demo u1 (body_of "Report" [u2; u2]) init).1 = 201
  ∧ (t_createdBy <$> tasks (createTask demo u1 (body_of "Report" [u2; u2]) init).2
                       !! first_id) = Some u1
  ∧ length (emitted (createTask demo u1 (body_of "Report" [u2; u2]) init).2) = 1.
Proof.
  assert ((createTask demo u1 (body_of "Report" [u2; u2]) init).1 = 201) as Hok
    by reflexivity.
  split; [exact Hok|].
  destruct (createTask_effect demo u1 (body_of "Report" [u2; u2]) init Hok)
    as (task & l & e & _ & _ & Ht & Hid & Hby & _ & _ & _ & _ & He & _).
  split.
  - rewrite Ht, Hid. change (newObjectId demo (created init)) with first_id.
    rewrite lookup_insert_eq. cbn. by rewrite Hby.
  - rewrite He. reflexivity.
Defined.



(** ** Sockets: connecting, leaving, and who is reached *)

(** X8: a token passes the middleware exactly when it is present, not
    empty and verified, and the user is then the [id] of its payload.  The
    connection that follows is registered: the user is online under the id
    of the new socket, the socket is open in its own room and in the room
    of its user, one line is written, and every other socket and every
    other entry of the Map is as before. *)
Theorem verified_connection_is_registered (env : Env) (token : option string)
    (sid userId : string) (st : State) :
  (authenticate env token = Authenticated userId
   ↔ ∃ t, token = Some t ∧ t ≠ EmptyString ∧ jwt_verify env t = Some userId)
  ∧ (authenticate env token = Authenticated userId →
     (connect env token sid st).1 = Registered
     ∧ isOnline userId (connect env token sid st).2 = true
     ∧ connectedUsers (connect env token sid st).2 !! userId = Some sid
     ∧ sockets (connect env token sid st).2 !! sid = Some (joined userId sid)
     ∧ console (connect env token sid st).2 = console st ++ [LogConnected userId]
     ∧ (∀ u, u ≠ userId →
          connectedUsers (connect env token sid st).2 !! u = connectedUsers st !! u)
     ∧ (∀ k, k ≠ sid →
          sockets (connect env token sid st).2 !! k = sockets st !! k)).
Proof.
  split.
  - unfold authenticate. destruct token as [t|].
    + case_decide as Ht.
      * split; [done|]. intros (t' & [= <-] & Hne & _). done.
      * destruct (jwt_verify env t) as [u|] eqn:Hv.
        -- split.
           ++ intros [= <-]. by exists t.
           ++ intros (t' & [= <-] & _ & Hv'). congruence.
        -- split; [done|]. intros (t' & [= <-] & _ & Hv'). congruence.
    + split; [done|]. by intros (t' & ? & _).
  - intros Hauth.
    destruct (connect_registered env token sid st userId Hauth) as (Hcon & Hc & Hs).
    rewrite Hcon at 1. split; [done|]. unfold isOnline. rewrite Hc, Hs.
    split; [apply bool_decide_eq_true; by rewrite lookup_insert_eq|].
    split; [apply lookup_insert_eq|]. split; [apply lookup_insert_eq|].
    split; [by rewrite Hcon|]. split.
    + intros u Hu. by rewrite lookup_insert_ne.
    + intros k Hk. by rewrite lookup_insert_ne.
Qed.

(** X9: when an open socket disconnects, one [user:disconnect] naming its
    user is broadcast; it reaches every socket that is still open, the
    other sockets of the same user among them, and not the socket that
    left.  One line is written and the user's entry is gone. *)
Theorem disconnect_is_announced (sid : string) (s : Socket) (st : State) :
  sockets st !! sid = Some s →
  emitted (disconnect sid st) = emitted st ++ [disconnect_notice sid (s_userId s) st]
  ∧ e_receivers (disconnect_notice sid (s_userId s) st) !! sid = None
  ∧ (∀ k s', k ≠ sid → sockets st !! k = Some s' →
       e_receivers (disconnect_notice sid (s_userId s) st) !! k = Some (s_userId s'))
  ∧ console (disconnect sid st) = console st ++ [LogDisconnected (s_userId s)]
  ∧ connectedUsers (disconnect sid st) !! s_userId s = None
  ∧ sockets (disconnect sid st) !! sid = None
  ∧ notifications (disconnect sid st) = notifications st.
Proof.
  intros Hs. unfold disconnect. rewrite Hs. cbn.
  split; [done|]. split; [by rewrite lookup_fmap, lookup_delete_eq|]. split.
  { intros k s' Hk Hk'. by rewrite lookup_fmap, lookup_delete_ne, Hk'. }
  split; [done|]. split; [apply lookup_delete_eq|]. split; [apply lookup_delete_eq|done].
Qed.

Lemma disconnect_is_announced_witness :
  sockets two_devices !! "s1" = Some (joined u1 "s1")
  ∧ e_receivers (disconnect_notice "s1" u1 two_devices) !! "s2" = Some u1
  ∧ length (emitted (disconnect "s1" two_devices)) = 1.
Proof.
  assert (sockets two_devices !! "s1" = Some (joined u1 "s1")) as Hs
    by (vm_compute; reflexivity).
  assert (sockets two_devices !! "s2" = Some (joined u1 "s2")) as Hs2
    by (vm_compute; reflexivity).
  destruct (disconnect_is_announced "s1" _ two_devices Hs)
    as (He & _ & Hreach & _).
  split; [exact Hs|]. split.
  - apply (Hreach "s2" (joined u1 "s2")); [discriminate|exact Hs2].
  - rewrite He. reflexivity.
Defined.

(** X10: a first connection followed by its disconnection is a round
    trip: when the user had no entry and the socket id was not in use, the
    Map, the open sockets, the tasks and the notifications are afterwards
    what they were before. *)
Theorem connect_then_disconnect (env : Env) (token : option string)
    (sid userId : string) (st : State) :
  authenticate env token = Authenticated userId →
  connectedUsers st !! userId = None →
  sockets st !! sid = None →
  connectedUsers (disconnect sid (connect env token sid st).2) = connectedUsers st
  ∧ sockets (disconnect sid (connect env token sid st).2) = sockets st
  ∧ tasks (disconnect sid (connect env token sid st).2) = tasks st
  ∧ notifications (disconnect sid (connect env token sid st).2) = notifications st.
Proof.
  intros Hauth Hentry Hfresh.
  destruct (connect_registered env token sid st userId Hauth) as (Hcon & Hc & Hs).
  assert (sockets (connect env token sid st).2 !! sid = Some (joined userId sid)) as Hopen.
  { rewrite Hs. apply lookup_insert_eq. }
  destruct (disconnect_open sid _ _ Hopen) as [Hdc Hds].
  rewrite Hdc, Hds, Hc, Hs. cbn [s_userId joined].
  split; [by apply delete_insert_id|]. split; [by apply delete_insert_id|].
  unfold disconnect. rewrite Hopen. rewrite Hcon. done.
Qed.

Lemma connect_then_disconnect_witness :
  authenticate demo (token_of u2) = Authenticated u2
  ∧ connectedUsers one_online !! u2 = None
  ∧ sockets one_online !! "s2" = None
  ∧ connectedUsers (disconnect "s2" (connect demo (token_of u2) "s2" one_online).2)
    = connectedUsers one_online.
Proof.
  assert (authenticate demo (token_of u2) = Authenticated u2) as Ha by reflexivity.
  assert (connectedUsers one_online !! u2 = None) as Hc by reflexivity.
  assert (sockets one_online !! "s2" = None) as Hs by reflexivity.
  split; [exact Ha|]. split; [exact Hc|]. split; [exact Hs|].
  exact (proj1 (connect_then_disconnect demo (token_of u2) "s2" u2 one_online Ha Hc Hs)).
Defined.

(** X11: the entry of a user in [connectedUsers] changes only when a
    socket of that user connects or disconnects: every other event, and
    every connection or disconnection of somebody else, leaves it as it
    is. *)
Theorem presence_changes_with_own_connections_only (env : Env) (st : State)
    (ev : Event) (userId : string) :
  ¬ touches_presence_of env st ev userId →
  connectedUsers (step env st ev) !! userId = connectedUsers st !! userId.
Proof.
  intros Hnot. destruct ev; cbn [step]; cbn [touches_presence_of] in Hnot.
  - destruct (authenticate env token) as [|u] eqn:Hauth.
    + by rewrite connect_rejected.
    + destruct (connect_registered env token sid st u Hauth) as (_ & -> & _).
      rewrite lookup_insert_ne; [done|]. by intros ->.
  - destruct (sockets st !! sid) as [s|] eqn:Hs; [|by rewrite disconnect_closed].
    destruct (disconnect_open sid s st Hs) as [-> _].
    rewrite lookup_delete_ne; [done|]. intros Hu. apply Hnot. by exists s.
  - unfold on_socket. destruct (sockets st !! sid); [|done].
    by destruct (on_task_update_registry env data st) as [-> _].
  - unfold on_socket. destruct (sockets st !! sid); [|done].
    by destruct (on_task_assign_registry env data st) as [-> _].
  - unfold on_socket. destruct (sockets st !! sid) as [s|]; [|done].
    by destruct (on_comment_new_registry env (s_userId s) data st) as [-> _].
  - by destruct (createTask_registry env user body st) as [-> _].
  - by destruct (updateTask_registry env user id body st) as [-> _].
  - by destruct (deleteTask_registry env user id st) as [-> _].
  - by destruct (addComment_registry env user id text st) as [-> _].
  - by destruct (markAsRead_registry env user notificationIds st) as [-> _].
  - done.
Qed.

Lemma presence_changes_with_own_connections_only_witness :
  ¬ touches_presence_of demo two_online (Disconnect "s2") u1
  ∧ connectedUsers (step demo two_online (Disconnect "s2")) !! u1 = Some "s1".
Proof.
  assert (¬ touches_presence_of demo two_online (Disconnect "s2") u1) as Hnot.
  { intros (s & Hs & Hu). vm_compute in Hs. injection Hs as <-. discriminate Hu. }
  split; [exact Hnot|].
  rewrite (presence_changes_with_own_connections_only demo two_online
             (Disconnect "s2") u1 Hnot).
  reflexivity.
Defined.

(** ** Who is reached by a push *)

Section Routing.
Context (env : Env).

(** The sockets pushed to are those that the Map holds for a listed
    recipient. *)
Lemma pushed_elem_of (m : gmap string string) type task message (l : list string) sid :
  sid ∈ omap pushed (outcome env type task message m <$> l) →
  ∃ u, u ∈ l ∧ m !! u = Some sid.
Proof.
  induction l as [|u l IH]; cbn [fmap list_fmap omap list_omap].
  { by intros ?%elem_of_nil. }
  unfold outcome at 1. destruct (m !! u) as [k|] eqn:Hu.
  - cbn [pushed]. intros [->|Hin]%elem_of_cons.
    + exists u. split; [by left|done].
    + destruct (IH Hin) as (u' & ? & ?). exists u'. split; [by right|done].
  - assert (pushed (match castObjectId env u, castObjectId env task with
                    | Some user, Some _ =>
                        if decide (type ∈ notification_types ∧ message ≠ EmptyString)
                        then Stored user else Failed
                    | _, _ => Failed
                    end) = None) as ->.
    { destruct (castObjectId env u); [|done].
      destruct (castObjectId env task); [|done]. by case_decide. }
    intros Hin. destruct (IH Hin) as (u' & ? & ?). exists u'. split; [by right|done].
Qed.

Lemma served_one_by_one_routes ev message data l st st' :
  well_formed st →
  served_one_by_one env ev message data l st st' →
  ∃ new, emitted st' = emitted st ++ new
         ∧ Forall (λ e, ∃ u sid, u ∈ l ∧ connectedUsers st !! u = Some sid
                                 ∧ e_target e = ToRoom sid ∧ e_event e = ev
                                 ∧ e_receivers e = {[sid := u]}) new.
Proof.
  intros [Hreg Hrooms] (He & _ & _). eexists. split; [exact He|].
  apply Forall_forall. intros e (sid & -> & Hsid)%list_elem_of_fmap.
  destruct (pushed_elem_of _ _ _ _ _ _ Hsid) as (u & Hu & Hentry).
  destruct (Hreg u sid Hentry) as (s & Hs & Hown).
  exists u, sid. do 4 (split; [done|]). cbn.
  by rewrite (room_members_socket sid s st Hrooms Hs), Hown.
Qed.

End Routing.

(** X13: in a reachable state every push of a socket handler goes to the
    socket that the Map holds for one of the listed recipients and is
    received by that socket alone, which is a socket of that recipient:
    for [task:update] an assignee, for [comment:new] the creator or an
    assignee other than the sender, so that no socket of the sender gets
    the comment back. *)
Theorem pushes_reach_listed_recipients_only (env : Env) (user : string)
    (data : Payload) (st : State) :
  reachable env st →
  (∃ new, emitted (on_task_update env data st) = emitted st ++ new
          ∧ Forall (λ e, ∃ u sid, u ∈ assignees data
                                  ∧ connectedUsers st !! u = Some sid
                                  ∧ e_target e = ToRoom sid
                                  ∧ e_event e = "task:update"
                                  ∧ e_receivers e = {[sid := u]}) new)
  ∧ (∃ new, emitted (on_comment_new env user data st) = emitted st ++ new
            ∧ Forall (λ e, (∃ u sid, u ∈ usersToNotify data ∧ u ≠ user
                                     ∧ connectedUsers st !! u = Some sid
                                     ∧ e_target e = ToRoom sid
                                     ∧ e_receivers e = {[sid := u]})
                           ∧ ∀ k, e_receivers e !! k ≠ Some user) new).
Proof.
  intros Hwf%reachable_well_formed. split.
  - apply (served_one_by_one_routes env "task:update" (update_message data) data
             (assignees data) st _ Hwf), notify_loop.
  - rewrite on_comment_new_loop.
    destruct (served_one_by_one_routes env "comment:new" (comment_message data)
                data _ st _ Hwf
                (notify_loop env "comment:new" (comment_message data) data
                   (filter (λ u, u ≠ user) (usersToNotify data)) st))
      as (new & He & Hall).
    exists new. split; [done|]. eapply Forall_impl; [exact Hall|].
    intros e (u & sid & [Hne Hu]%list_elem_of_filter & Hentry & Ht & _ & Hr). split.
    + by exists u, sid.
    + intros k. rewrite Hr. intros [_ ?]%lookup_singleton_Some. congruence.
Qed.

Lemma pushes_reach_listed_recipients_only_witness :
  reachable demo two_online
  ∧ ∃ new, emitted (on_comment_new demo u2 (payload task1 u2 [u1; u2] u1) two_online)
           = emitted two_online ++ new
           ∧ length new = 2.
Proof.
  assert (reachable demo two_online) as Hreach.
  { apply (reachable_step demo _ (Connect (token_of u2) "s2")).
    - apply (reachable_step demo _ (Connect (token_of u1) "s1")).
      + constructor.
      + split; reflexivity.
    - split; reflexivity. }
  split; [exact Hreach|].
  destruct (proj2 (pushes_reach_listed_recipients_only demo u2
                     (payload task1 u2 [u1; u2] u1) two_online Hreach))
    as (new & He & _).
  exists new. split; [exact He|].
  assert (length (emitted (on_comment_new demo u2 (payload task1 u2 [u1; u2] u1)
                             two_online)) = 2) as Hlen by (vm_compute; reflexivity).
  rewrite He, length_app in Hlen. exact Hlen.
Defined.

(** ** What the collections hold *)

Section Documents.
Context (env : Env).


Lemma documents_sound_frame st st' :
  notifications st' = notifications st → tasks st' = tasks st →
  documents_sound env st → documents_sound env st'.
Proof.
  intros Hn Ht [Hvalid Htasks]. split; [by rewrite Hn|].
  intros tid task. rewrite Ht. apply Htasks.
Qed.






End Documents.



(** ** Reading, marking and deleting notifications *)

Section Inbox.
Context (env : Env).

Lemma mark_read_idempotent n : mark_read (mark_read n) = mark_read n.
Proof. done. Qed.

Lemma updateMany_read_idempotent ids user l :
  Notification_updateMany_read ids user (Notification_updateMany_read ids user l)
  = Notification_updateMany_read ids user l.
Proof.
  unfold Notification_updateMany_read. rewrite <-list_fmap_compose.
  apply list_fmap_ext. intros _ n _. cbn.
  destruct (decide (n_id n ∈ ids ∧ n_user n = user)) as [Hn|Hn].
  - by rewrite decide_True.
  - by rewrite decide_False.
Qed.

Lemma getNotifications_filter (P : Notification → Prop)
    `{!∀ n, Decision (P n)} user (l : list Notification) :
  reverse (filter (λ n, n_user n = user) (filter P l))
  = filter P (reverse (filter (λ n, n_user n = user) l)).
Proof.
  rewrite filter_reverse. f_equal.
  induction l as [|n l IH]; [done|].
  rewrite !filter_cons. destruct (decide (P n)), (decide (n_user n = user));
    rewrite ?filter_cons, ?decide_True, ?decide_False by done; by rewrite ?IH.
Qed.

Lemma filter_agree (P Q : Notification → Prop)
    `{!∀ n, Decision (P n)} `{!∀ n, Decision (Q n)} (l : list Notification) :
  (∀ n, n ∈ l → P n ↔ Q n) → filter P l = filter Q l.
Proof.
  induction l as [|n l IH]; intros Hpq; [done|].
  rewrite !filter_cons. rewrite IH by (intros; apply Hpq; by right).
  destruct (decide (P n)) as [Hp|Hp].
  - rewrite decide_True; [done|]. apply Hpq; [by left|done].
  - rewrite decide_False; [done|]. intros Hq. apply Hp, Hpq; [by left|done].
Qed.

Lemma filter_others_inbox user other (l l' : list Notification) :
  other ≠ user →
  filter (λ n, n_user n ≠ user) l' = filter (λ n, n_user n ≠ user) l →
  filter (λ n, n_user n = other) l' = filter (λ n, n_user n = other) l.
Proof.
  intros Hne Heq.
  assert (∀ k : list Notification,
            filter (λ n, n_user n = other) (filter (λ n, n_user n ≠ user) k)
            = filter (λ n, n_user n = other) k) as Hnest.
  { intros k. induction k as [|n k IH]; [done|].
    rewrite !filter_cons. destruct (decide (n_user n ≠ user)) as [Hu|Hu].
    - rewrite filter_cons. by rewrite IH.
    - rewrite IH. rewrite decide_False; [done|]. intros Ho. apply Hu. congruence. }
  by rewrite <-(Hnest l'), <-(Hnest l), Heq.
Qed.

End Inbox.

(** X15: a [markAsRead] answered with 200 had a list of ids that all cast.
    Afterwards every notification of the requester with one of these ids
    is read; a notification that is not the requester's or is not named
    is as it was; and a [deleteReadNotifications] that follows leaves the
    requester none of the named ones. *)
Theorem markAsRead_marks_the_named (env : Env) (user : string)
    (ids : option (list string)) (st : State) :
  (markAsRead env user ids st).1 = 200 →
  ∃ l oids,
    ids = Some l ∧ l ≠ [] ∧ mapM (castObjectId env) l = Some oids
    ∧ (∀ n, n ∈ notifications (markAsRead env user ids st).2 →
            n_user n = user → n_id n ∈ oids → n_read n = true)
    ∧ (∀ i n, notifications st !! i = Some n →
              ¬ (n_id n ∈ oids ∧ n_user n = user) →
              notifications (markAsRead env user ids st).2 !! i = Some n)
    ∧ (∀ n, n ∈ notifications
                  (deleteReadNotifications user (markAsRead env user ids st).2).2 →
            n_user n = user → n_id n ∉ oids).
Proof.
  unfold markAsRead. destruct ids as [[|i l]|]; [done| |done].
  destruct (mapM _ _) as [oids|] eqn:Hcast; [|done]. intros _.
  exists (i :: l), oids. do 3 (split; [done|]). cbn [snd].
  assert (∀ n, n ∈ Notification_updateMany_read oids user (notifications st) →
               n_user n = user → n_id n ∈ oids → n_read n = true) as Hread.
  { intros n (n0 & -> & Hn0)%list_elem_of_fmap. case_decide as Hc; [done|].
    intros ? ?. by destruct Hc. }
  split; [exact Hread|]. split.
  - intros k n Hk Hnot. cbn. unfold Notification_updateMany_read.
    rewrite list_lookup_fmap, Hk. cbn. by rewrite decide_False.
  - intros n. cbn. unfold Notification_deleteMany_read.
    intros [Hkeep Hin]%list_elem_of_filter Hu Hid.
    apply Hkeep. split; [done|]. by apply Hread.
Qed.

Lemma markAsRead_marks_the_named_witness :
  (markAsRead demo u1 (Some [demo_newObjectId 2]) commented).1 = 200
  ∧ ∃ n, notifications commented !! 0 = Some n ∧ n_user n = u2
         ∧ notifications (markAsRead demo u1 (Some [demo_newObjectId 2]) commented).2
             !! 0 = Some n.
Proof.
  assert ((markAsRead demo u1 (Some [demo_newObjectId 2]) commented).1 = 200) as Hok
    by reflexivity.
  split; [exact Hok|].
  destruct (markAsRead_marks_the_named demo u1 _ commented Hok)
    as (l & oids & _ & _ & _ & _ & Hkept & _).
  destruct (notifications commented !! 0) as [n|] eqn:Hn; [|by vm_compute in Hn].
  assert (n_user n = u2) as Hu by (vm_compute in Hn; by injection Hn as <-).
  exists n. split; [done|]. split; [done|].
  apply Hkept; [done|]. intros [_ Hmine]. rewrite Hu in Hmine. discriminate Hmine.
Defined.

(** X16: the notification endpoints compose as a reader expects.  Marking
    the same ids twice is marking them once, and deleting twice is
    deleting once; no call to [markAsRead] turns a read notification
    unread; after [deleteReadNotifications] the requester's list is the
    unread part of the list before, in the same order; and what another
    user gets from [getNotifications] is the same before and after either
    call. *)
Theorem notification_endpoints_compose (env : Env) (user other : string)
    (ids : option (list string)) (st : State) :
  markAsRead env user ids (markAsRead env user ids st).2 = markAsRead env user ids st
  ∧ deleteReadNotifications user (deleteReadNotifications user st).2
    = deleteReadNotifications user st
  ∧ (∀ i n, notifications st !! i = Some n → n_read n = true →
       ∃ n', notifications (markAsRead env user ids st).2 !! i = Some n'
             ∧ n_read n' = true)
  ∧ getNotifications user (deleteReadNotifications user st).2
    = filter (λ n, n_read n = false) (getNotifications user st)
  ∧ (other = user
     ∨ (getNotifications other (markAsRead env user ids st).2
        = getNotifications other st
        ∧ getNotifications other (deleteReadNotifications user st).2
          = getNotifications other st)).
Proof.
  split; [|split; [|split; [|split]]].
  - unfold markAsRead. destruct ids as [[|i l]|]; [done| |done].
    destruct (mapM _ _) as [oids|] eqn:Hcast; [|done].
    cbn [snd]. unfold set_notifications. cbn. do 2 f_equal.
    apply (updateMany_read_idempotent oids user).
  - unfold deleteReadNotifications, set_notifications. cbn.
    unfold Notification_deleteMany_read. do 2 f_equal.
    by rewrite list_filter_filter, (list_filter_iff _ (λ n, ¬ (n_user n = user ∧ n_read n = true)))
      by tauto.
  - intros i n Hi Hread.
    destruct (markAsRead_notifications env user ids st) as [->|(oids & _ & ->)].
    + by exists n.
    + unfold Notification_updateMany_read. rewrite list_lookup_fmap, Hi. cbn.
      case_decide; eexists; (split; [reflexivity|done]).
  - unfold getNotifications, deleteReadNotifications.
    cbn [snd notifications set_notifications].
    unfold Notification_deleteMany_read.
    rewrite (getNotifications_filter (λ n, ¬ (n_user n = user ∧ n_read n = true))).
    apply filter_agree. intros n Hn.
    apply elem_of_reverse, list_elem_of_filter in Hn as [Hu _].
    destruct (n_read n); split; intros H; try done.
    + destruct H. by split.
    + by intros [_ ?].
  - destruct (decide (other = user)) as [->|Hne]; [by left|right].
    unfold getNotifications. split; f_equal.
    + apply (filter_others_inbox user other _ _ Hne).
      destruct (markAsRead_notifications env user ids st) as [->|(oids & _ & ->)];
        [done|apply updateMany_read_others].
    + apply (filter_others_inbox user other _ _ Hne).
      cbn [deleteReadNotifications snd notifications set_notifications].
      apply deleteMany_read_others.
Qed.

(** X17: a notification that [createNotification] stores is unread, is
    for the user the given id casts to, and is added at the end of the
    collection; from then on [getNotifications] returns to that user this
    notification together with the ones it returned before, and to every
    other user what it returned before. *)
Theorem stored_notification_is_listed (env : Env) (userId : JsId)
    (type : string) (task : JsId) (message : string) (st : State)
    (n : Notification) :
  Notification_create env userId type task message st = Some n →
  castJsId env userId = Some (n_user n) ∧ n_read n = false
  ∧ notifications (createNotification env userId type task message st)
    = notifications st ++ [n]
  ∧ getNotifications (n_user n) (createNotification env userId type task message st)
    ≡ₚ n :: getNotifications (n_user n) st
  ∧ (∀ other, other ≠ n_user n →
       getNotifications other (createNotification env userId type task message st)
       = getNotifications other st).
Proof.
  intros Hcreate. unfold createNotification. rewrite Hcreate.
  unfold getNotifications. cbn [notifications count_created set_notifications].
  unfold Notification_create in Hcreate.
  destruct (castJsId env userId) as [user|]; [|done].
  destruct (castJsId env task); [|done]. case_decide; [|done].
  injection Hcreate as <-. cbn [n_user n_read].
  split; [done|]. split; [done|]. split; [done|]. split.
  - rewrite filter_app, filter_cons_True by done. cbn.
    by rewrite reverse_app.
  - intros other Hne. rewrite filter_app, filter_cons_False by (cbn; congruence).
    cbn. by rewrite app_nil_r.
Qed.

Lemma stored_notification_is_listed_witness :
  ∃ n, Notification_create demo (JStr u2) "task:assign" (JStr task1) "Hello" init = Some n
       ∧ getNotifications u2
           (createNotification demo (JStr u2) "task:assign" (JStr task1) "Hello" init)
         ≡ₚ [n].
Proof.
  eexists. assert (Notification_create demo (JStr u2) "task:assign" (JStr task1)
                     "Hello" init = Some _) as Hcreate by (vm_compute; reflexivity).
  split; [exact Hcreate|].
  exact (proj1 (proj2 (proj2 (proj2 (stored_notification_is_listed demo (JStr u2)
                                "task:assign" (JStr task1) "Hello" init _ Hcreate))))).
Defined.

(** X18: a [task:assign] for a user without an entry in [connectedUsers],
    whose id and task id cast, is not emitted to anyone and writes no
    line; one unread [task:assign] notification with the text of the
    handler is added to the collection, and [getNotifications] returns it
    to that user together with the ones it returned before. *)
Theorem offline_assignment_lands_in_the_inbox (env : Env) (data : Payload)
    (st : State) (user tid : string) :
  connectedUsers st !! assigneeId data = None →
  castObjectId env (assigneeId data) = Some user →
  castObjectId env (taskId data) = Some tid →
  let n := {| n_id := newObjectId env (created st); n_user := user;
              n_type := "task:assign"; n_taskId := tid;
              n_message := assign_message data; n_read := false |} in
  emitted (on_task_assign env data st) = emitted st
  ∧ console (on_task_assign env data st) = console st
  ∧ notifications (on_task_assign env data st) = notifications st ++ [n]
  ∧ getNotifications user (on_task_assign env data st)
    ≡ₚ n :: getNotifications user st.
Proof.
  intros Hoff Hu Ht. unfold on_task_assign, notify. rewrite Hoff.
  unfold createNotification, Notification_create. cbn [castJsId]. rewrite Hu, Ht.
  rewrite decide_True.
  - unfold getNotifications. cbn [emitted console notifications count_created
                                    set_notifications].
    split; [done|]. split; [done|]. split; [done|].
    rewrite filter_app, filter_cons_True by done. cbn. by rewrite reverse_app.
  - split; [|done]. unfold notification_types. rewrite !elem_of_cons. tauto.
Qed.

Lemma offline_assignment_lands_in_the_inbox_witness :
  connectedUsers one_online !! u2 = None
  ∧ castObjectId demo u2 = Some u2
  ∧ castObjectId demo task1 = Some task1
  ∧ n_message <$> notifications
                    (on_task_assign demo (payload task1 u2 [] u1) one_online)
    = [assign_message (payload task1 u2 [] u1)].
Proof.
  assert (connectedUsers one_online !! u2 = None) as Hoff by reflexivity.
  assert (castObjectId demo u2 = Some u2) as Hu by reflexivity.
  assert (castObjectId demo task1 = Some task1) as Ht by reflexivity.
  split; [exact Hoff|]. split; [exact Hu|]. split; [exact Ht|].
  destruct (offline_assignment_lands_in_the_inbox demo (payload task1 u2 [] u1)
              one_online u2 task1 Hoff Hu Ht) as (_ & _ & Hnew & _).
  rewrite Hnew. reflexivity.
Defined.

(** ** The loop of the controllers *)

Section Attempts.
Context (env : Env).

Lemma notification_types_assign : "task:assign" ∈ notification_types.
Proof. unfold notification_types. rewrite !elem_of_cons. tauto. Qed.

Lemma createNotification_string a hex type task message st :
  castObjectId env a = Some hex →
  type ∈ notification_types → message ≠ EmptyString →
  createNotification env (JStr a) type (JOid task) message st
  = count_created
      (set_notifications
         (λ l, l ++ [ {| n_id := newObjectId env (created st); n_user := hex;
                         n_type := type; n_taskId := task; n_message := message;
                         n_read := false |} ]) st).
Proof.
  intros Ha Htype Hmsg. unfold createNotification, Notification_create.
  cbn [castJsId]. rewrite Ha. by rewrite decide_True.
Qed.

(** The loop of a controller over id strings that all cast: one
    notification for every string other than the requester's, in order. *)
Lemma store_notifications_strings user type task message (l : list string) st :
  Forall (λ a, is_Some (castObjectId env a)) l →
  type ∈ notification_types → message ≠ EmptyString →
  ∃ new,
    notifications (store_notifications env user type task message (JStr <$> l) st)
    = notifications st ++ new
    ∧ Forall2 (λ a n, castObjectId env a = Some (n_user n))
        (filter (λ a, a ≠ user) l) new
    ∧ Forall (stored_as type task message) new
    ∧ console (store_notifications env user type task message (JStr <$> l) st)
      = console st.
Proof.
  intros Hcast Htype Hmsg. unfold store_notifications.
  revert st. induction Hcast as [|a l [hex Ha] _ IH]; intros st.
  { exists []. rewrite app_nil_r. by repeat split; constructor. }
  cbn [fmap list_fmap foldl toString]. rewrite filter_cons.
  destruct (decide (a ≠ user)) as [Hne|Hne].
  - rewrite (createNotification_string a hex) by done.
    match goal with |- context [foldl _ ?s _] =>
      destruct (IH s) as (new & Hn & Hu & Hall & Hc) end.
    eexists (_ :: new). rewrite Hn, Hc. cbn. rewrite <-app_assoc.
    split; [reflexivity|]. split; [by constructor|]. split; [|done].
    by constructor.
  - destruct (IH st) as (new & Hn & Hu & Hall & Hc). by exists new.
Qed.

End Attempts.

(** X19: a [createTask] answered with 201 has stored, after the
    notifications that were there, one unread [task:assign] notification
    for every entry of the [assignees] of the body whose string is not the
    requester's id: the i-th notification is for the cast of the i-th such
    entry, so an id that the body lists twice gets two.  All carry the id
    and the title of the new task, and no store fails. *)
Theorem createTask_notifies_every_listed_assignee (env : Env) (user : string)
    (body : Body) (st : State) (l : list string) :
  b_assignees body = Some l →
  (createTask env user body st).1 = 201 →
  ∃ new,
    notifications (createTask env user body st).2 = notifications st ++ new
    ∧ Forall2 (λ a n, castObjectId env a = Some (n_user n))
        (filter (λ a, a ≠ user) l) new
    ∧ Forall (stored_as "task:assign" (newObjectId env (created st))
                ("You have been assigned to task "
                   +:+ quoted (js_string (b_title body)))) new
    ∧ console (createTask env user body st).2 = console st.
Proof.
  intros Hl. unfold createTask. rewrite Hl. destruct l as [|a l]; [done|].
  destruct (Task_create _ _ _ _ _ _ _ _) as [task|] eqn:Hcreate; [|done].
  intros _. cbn [snd].
  unfold Task_create in Hcreate. cbn [castJsId] in Hcreate.
  destruct (mapM _ _) as [l'|] eqn:Hcast; [|done].
  destruct (validateTask _ _); [|done]. injection Hcreate as <-.
  cbn [t_id t_title].
  assert (Forall (λ a, is_Some (castObjectId env a)) (a :: l)) as Hall.
  { apply Forall_forall. intros x Hx. apply mapM_Some in Hcast.
    assert (JStr x ∈ js_set ((JStr <$> a :: l) ++ [JOid user])) as Hin.
    { apply elem_of_js_set, elem_of_app. left. by apply list_elem_of_fmap_2. }
    apply list_elem_of_lookup in Hin as [i Hi].
    destruct (Forall2_lookup_l _ _ _ _ _ Hcast Hi) as (y & _ & Hy). by exists y. }
  match goal with |- context [store_notifications ?e ?u ?t ?k ?m (JStr <$> ?hs) ?s] =>
    destruct (store_notifications_strings e u t k m hs s Hall
                notification_types_assign) as (new & Hn & Hu & Hst & Hc); [done|]
  end.
  exists new. rewrite Hn, Hc. done.
Qed.

Lemma createTask_notifies_every_listed_assignee_witness :
  b_assignees (body_of "Report" [u2; u1; u2]) = Some [u2; u1; u2]
  ∧ (createTask demo u1 (body_of "Report" [u2; u1; u2]) init).1 = 201
  ∧ n_user <$> notifications (createTask demo u1 (body_of "Report" [u2; u1; u2]) init).2
    = [u2; u2].
Proof.
  assert (b_assignees (body_of "Report" [u2; u1; u2]) = Some [u2; u1; u2]) as Hl
    by reflexivity.
  assert ((createTask demo u1 (body_of "Report" [u2; u1; u2]) init).1 = 201) as Hok
    by reflexivity.
  split; [exact Hl|]. split; [exact Hok|].
  destruct (createTask_notifies_every_listed_assignee demo u1 _ init _ Hl Hok)
    as (new & Hn & Hu & _).
  rewrite Hn. cbn [notifications init app].
  change (filter (λ a, a ≠ u1) [u2; u1; u2]) with [u2; u2] in Hu.
  apply Forall2_cons_inv_l in Hu as (n1 & new1 & H1 & Hu & ->).
  apply Forall2_cons_inv_l in Hu as (n2 & new2 & H2 & Hu & ->).
  apply Forall2_nil_inv_l in Hu as ->.
  cbn in H1, H2. unfold hex24 in H1, H2. cbn in H1, H2.
  injection H1 as H1. injection H2 as H2.
  change (n_user <$> [n1; n2]) with [n_user n1; n_user n2].
  rewrite <-H1, <-H2. reflexivity.
Defined.
